(** * kubernetes-py: K8sNamespace and K8sPersistentVolume

    A shallow embedding of [kubernetes/K8sNamespace.py] and
    [kubernetes/K8sPersistentVolume.py].

    Python objects are records, Python dictionaries and dynamic attribute
    tables are [gmap]s keyed by strings, and a method is a function from the
    state it can touch (the controller and the outside world) to an outcome
    and the state it leaves behind.  An exception leaves the mutations made
    before it in place, so the state is returned next to the outcome. *)

From Stdlib Require Import QArith.
From stdpp Require Import gmap strings list fin_maps.

Local Open Scope string_scope.

(** ** Python values and exceptions *)

(** The values the two classes move around: [None] and strings. *)
Inductive pyval : Type :=
| PyNone
| PyStr (s : string).

#[global] Instance pyval_eq_dec : EqDecision pyval.
Proof. solve_decision. Defined.

(** [x == y] on these values. *)
Definition py_eq (x y : pyval) : bool := bool_decide (x = y).

(** ["{}".format(x)] *)
Definition py_format (x : pyval) : string :=
  match x with
  | PyNone => "None"
  | PyStr s => s
  end.

(** The exceptions that can surface.  The specification's error kinds are
    [InvalidArgument] ([SyntaxError]), [UnsupportedForVariant]
    ([NotImplementedError]), [TimedOut] ([TimedOutException]) and the
    transport's own ([TransportError], carrying the HTTP-like status). *)
Inductive exn : Type :=
| SyntaxError (msg : string)
| NotImplementedError
| TimedOutException (msg : string)
| KeyError (k : pyval)
| TypeError
| AttributeError (attr : string)
| TransportError (code : nat).

(** What running a piece of code yields: a value, a raised exception, or
    nothing yet because the loop bound of the model was reached. *)
Inductive outcome (A : Type) : Type :=
| Ok (a : A)
| Raise (e : exn)
| OutOfFuel.
Arguments Ok {A} a.
Arguments Raise {A} e.
Arguments OutOfFuel {A}.

(** ** Dictionaries and attribute tables *)

(** [k in d] for a dictionary keyed by strings. *)
Definition dict_contains {V} (d : gmap string V) (k : pyval) : bool :=
  match k with
  | PyStr s => bool_decide (is_Some (d !! s))
  | PyNone => false
  end.

(** [d[k]]; a missing key raises [KeyError]. *)
Definition dict_getitem {V} (d : gmap string V) (k : pyval) : outcome V :=
  match k with
  | PyStr s => match d !! s with
               | Some v => Ok v
               | None => Raise (KeyError k)
               end
  | PyNone => Raise (KeyError k)
  end.

(** The value a dictionary maps [k] to, if any. *)
Definition dict_lookup {V} (d : gmap string V) (k : pyval) : option V :=
  match k with
  | PyStr s => d !! s
  | PyNone => None
  end.

(** [x in l] for a list of strings. *)
Definition list_contains (l : list string) (x : pyval) : bool :=
  match x with
  | PyStr s => bool_decide (s ∈ l)
  | PyNone => false
  end.

(** ** The state monad of a method *)

Section Monad.
Context {St : Type}.

Definition M (A : Type) : Type := St -> outcome A * St.

Definition ret {A} (a : A) : M A := fun s => (Ok a, s).

Definition bind {A B} (c : M A) (k : A -> M B) : M B :=
  fun s =>
    match c s with
    | (Ok a, s') => k a s'
    | (Raise e, s') => (Raise e, s')
    | (OutOfFuel, s') => (OutOfFuel, s')
    end.

Definition raise {A} (e : exn) : M A := fun s => (Raise e, s).

Definition diverge {A} : M A := fun s => (OutOfFuel, s).

Definition gets {A} (f : St -> A) : M A := fun s => (Ok (f s), s).

Definition modify (f : St -> St) : M unit := fun s => (Ok tt, f s).

(** Lifts the outcome of a computation that touches no state. *)
Definition lift {A} (o : outcome A) : M A := fun s => (o, s).
End Monad.
Arguments M : clear implicits.

Declare Scope method_scope.
Delimit Scope method_scope with method.
Notation "x <~ c ;; k" := (bind c (fun x => k))
  (at level 100, c at next level, right associativity) : method_scope.
Notation "c ;;; k" := (bind c (fun _ => k))
  (at level 100, right associativity) : method_scope.
Local Open Scope method_scope.

(** ** Collaborators outside the two files *)

(** [metadata] of a resource model ([ObjectMeta]): plain attributes. *)
Record ObjectMeta : Type := {
  meta_name : pyval;
  labels : gmap string pyval;
  annotations : gmap string pyval;
}.

Definition ObjectMeta_empty : ObjectMeta :=
  {| meta_name := PyNone; labels := ∅; annotations := ∅ |}.

(** The outside world as a run sees it: the answers of the transport and of
    [time.time()], indexed by how many calls came before.  Any server and any
    clock induce such a script along a run, so a statement for all scripts
    is a statement for all servers and clocks. *)
Record Transport (Doc : Type) : Type := {
  t_create : nat -> outcome Doc;
  t_update : nat -> outcome Doc;
  t_get : nat -> outcome Doc;
  t_list : nat -> outcome (list Doc);
}.
Arguments t_create {Doc} _ _.
Arguments t_update {Doc} _ _.
Arguments t_get {Doc} _ _.
Arguments t_list {Doc} _ _.

Record World : Type := {
  calls : nat;  (* transport calls made so far *)
  ticks : nat;  (* readings of the clock taken so far *)
}.

Definition next_call (w : World) : World :=
  {| calls := S (calls w); ticks := ticks w |}.

Definition next_tick (w : World) : World :=
  {| calls := calls w; ticks := S (ticks w) |}.

(** A call to the transport: the script answers, and the call is counted
    whether it succeeds or not. *)
Definition transport_call {Self A} (script : nat -> outcome A)
  : M (Self * World) A :=
  fun '(self, w) => (script (calls w), (self, next_call w)).

(** Runs a method on an object that the caller does not keep. *)
Definition on_object {Self A} (self : Self) (c : M (Self * World) A)
  : M World A :=
  fun w => let '(o, (_, w')) := c (self, w) in (o, w').

(** * K8sNamespace *)

Module K8sNamespace.

(** The resource model [kubernetes.models.v1.Namespace]. *)
Record NamespaceSpec : Type := { finalizers : list string }.
Record NamespaceStatus : Type := { phase : pyval }.
Record Namespace : Type := {
  metadata : ObjectMeta;
  spec : NamespaceSpec;
  status : NamespaceStatus;
}.

Definition Namespace_empty : Namespace :=
  {| metadata := ObjectMeta_empty;
     spec := {| finalizers := [] |};
     status := {| phase := PyNone |} |}.

Definition set_metadata_name (n : pyval) (m : Namespace) : Namespace :=
  {| metadata := {| meta_name := n;
                    labels := labels (metadata m);
                    annotations := annotations (metadata m) |};
     spec := spec m;
     status := status m |}.

(** The controller object: what [K8sObject] keeps, and the model. *)
Record K8sNamespace (Config : Type) : Type := {
  config : Config;
  obj_type : string;
  model : Namespace;
}.
Arguments config {Config} _.
Arguments obj_type {Config} _.
Arguments model {Config} _.

Section Controller.
(** The configuration is an opaque bundle; [Doc] is a document as the
    transport returns it and [Namespace_of] is the model's constructor from
    such a document, [Namespace(x)]. *)
Context {Config Doc : Type}.
Variable Namespace_of : Doc -> Namespace.
Variable tr : Transport Doc.

Local Abbreviation K8sNamespace := (K8sNamespace Config).

Definition set_model (y : Namespace) (self : K8sNamespace) : K8sNamespace :=
  {| config := config self; obj_type := obj_type self; model := y |}.

Definition Meth (A : Type) : Type := M (K8sNamespace * World) A.

(** [self.model = y] *)
Definition assign_model (y : Namespace) : Meth unit :=
  modify (fun '(self, w) => (set_model y self, w)).

(** Modelled from the spec: [K8sObject.__init__] is not among the sources.
    The resource controller holds the configuration, an object-type tag and
    exactly one resource model, constructed empty; [name] is written through
    the [name] property. *)
Definition K8sObject_init (cfg : Config) (name : pyval) (ty : string)
  : K8sNamespace :=
  {| config := cfg; obj_type := ty;
     model := set_metadata_name name Namespace_empty |}.

(** Modelled from the spec: [K8sObject.create], [update], [list] and
    [get_model] are not among the sources.  Each delegates one call to the
    transport, [create(type, body) -> document], [update(type, body) ->
    document], [list(type) -> [document]], [get(type, name) -> document],
    and lets the transport's error propagate. *)
Definition K8sObject_create : Meth unit :=
  _ <~ transport_call (t_create tr) ;; ret tt.

Definition K8sObject_update : Meth unit :=
  _ <~ transport_call (t_update tr) ;; ret tt.

Definition K8sObject_list : Meth (list Doc) :=
  transport_call (t_list tr).

Definition get_model : Meth Doc :=
  transport_call (t_get tr).

(** [__init__] *)
Definition __init__ (cfg : Config) (name : pyval) : K8sNamespace :=
  K8sObject_init cfg name "Namespace".

(** [name] (getter) *)
Definition name (self : K8sNamespace) : pyval :=
  meta_name (metadata (model self)).

(** [get] *)
Definition get : Meth K8sNamespace :=
  d <~ get_model ;;
  assign_model (Namespace_of d) ;;;
  gets fst.

(** [create] *)
Definition create : Meth K8sNamespace :=
  K8sObject_create ;;;
  get ;;;
  gets fst.

(** [update] *)
Definition update : Meth K8sNamespace :=
  K8sObject_update ;;;
  get ;;;
  gets fst.

(** The body of the [for] loop of [list]. *)
Definition list_step (self : K8sNamespace) (k8s_ns : list K8sNamespace)
  (x : Doc) : list K8sNamespace :=
  let y := Namespace_of x in
  let k8s := __init__ (config self) (name self) in
  let k8s := set_model y k8s in
  k8s_ns ++ [k8s].

(** [list] *)
Definition list : Meth (list K8sNamespace) :=
  ns <~ K8sObject_list ;;
  self <~ gets fst ;;
  ret (fold_left (list_step self) ns []).

(** [get_annotation] *)
Definition get_annotation (k : pyval) (self : K8sNamespace) : outcome pyval :=
  if dict_contains (annotations (metadata (model self))) k
  then dict_getitem (annotations (metadata (model self))) k
  else Ok PyNone.

(** [get_label] *)
Definition get_label (k : pyval) (self : K8sNamespace) : outcome pyval :=
  if dict_contains (labels (metadata (model self))) k
  then dict_getitem (labels (metadata (model self))) k
  else Ok PyNone.

(** [finalizers] (getter and setter) *)
Definition finalizers_ (self : K8sNamespace) : Datatypes.list string :=
  finalizers (spec (model self)).

Definition set_finalizers (f : Datatypes.list string) : Meth unit :=
  modify (fun '(self, w) =>
    (set_model {| metadata := metadata (model self);
                  spec := {| finalizers := f |};
                  status := status (model self) |} self, w)).

(** [status] *)
Definition status_ (self : K8sNamespace) : NamespaceStatus :=
  status (model self).

(** [name] (setter) *)
Definition set_name (n : pyval) : Meth unit :=
  modify (fun '(self, w) => (set_model (set_metadata_name n (model self)) self, w)).

(** [get_by_name] (static).  [filter] returns a list, as in Python 2, which
    the file is written for. *)
Definition get_by_name (cfg : Config) (nm : pyval)
  : M World (option K8sNamespace) :=
  namespaces <~ on_object (__init__ cfg nm) list ;;
  let filtered := List.filter (fun x => py_eq (name x) nm) namespaces in
  match filtered with
  | x :: _ => ret (Some x)
  | [] => ret None
  end.

End Controller.
End K8sNamespace.

(** * K8sPersistentVolume *)

Module K8sPersistentVolume.

(** A volume-source object ([HostPathVolumeSource], [NFSVolumeSource], ...)
    is known to this file only through [hasattr], attribute reads and
    attribute writes: it is the table of its attributes. *)
Abbreviation Source := (gmap string pyval).

(** The resource model [kubernetes.models.v1.PersistentVolume].  The spec
    object receives one attribute per volume type through [setattr]; these
    live in [slots], apart from its own [access_modes] and [capacity]. *)
Record PersistentVolumeSpec : Type := {
  spec_access_modes : list string;
  spec_capacity : gmap string string;
  slots : gmap string Source;
}.
Record PersistentVolumeStatus : Type := { phase : pyval }.
Record PersistentVolume : Type := {
  metadata : ObjectMeta;
  spec : PersistentVolumeSpec;
  status : PersistentVolumeStatus;
}.

(** [PersistentVolume()] *)
Definition PersistentVolume_empty : PersistentVolume :=
  {| metadata := ObjectMeta_empty;
     spec := {| spec_access_modes := []; spec_capacity := ∅; slots := ∅ |};
     status := {| phase := PyNone |} |}.

Definition set_metadata (md : ObjectMeta) (m : PersistentVolume)
  : PersistentVolume :=
  {| metadata := md; spec := spec m; status := status m |}.

Definition set_spec (sp : PersistentVolumeSpec) (m : PersistentVolume)
  : PersistentVolume :=
  {| metadata := metadata m; spec := sp; status := status m |}.

Definition set_slots (sl : gmap string Source) (sp : PersistentVolumeSpec)
  : PersistentVolumeSpec :=
  {| spec_access_modes := spec_access_modes sp;
     spec_capacity := spec_capacity sp;
     slots := sl |}.

(** The controller object: what [K8sObject] keeps, the model and [_type]. *)
Record K8sPersistentVolume (Config : Type) : Type := {
  config : Config;
  obj_type : string;
  model : PersistentVolume;
  _type : pyval;
}.
Arguments config {Config} _.
Arguments obj_type {Config} _.
Arguments model {Config} _.
Arguments _type {Config} _.

(** [hasattr(o, f)], where [o] is a volume source or [None]. *)
Definition hasattr (o : option Source) (f : string) : bool :=
  match o with
  | Some src => bool_decide (is_Some (src !! f))
  | None => false
  end.

(** [o.f] *)
Definition getattr (o : option Source) (f : string) : outcome pyval :=
  match o with
  | Some src => match src !! f with
                | Some v => Ok v
                | None => Raise (AttributeError f)
                end
  | None => Raise (AttributeError f)
  end.

Definition READY_WAIT_TIMEOUT_SECONDS : Q := 60.

(** The two states of the readiness machine, read off the local model:
    [Available], and [Pending] for any other phase. *)
Definition Available (m : PersistentVolume) : Prop :=
  phase (status m) = PyStr "Available".

Definition Pending (m : PersistentVolume) : Prop :=
  phase (status m) ≠ PyStr "Available".

Section Controller.
Context {Config Doc : Type}.
(** [Volume.VOLUME_TYPES_TO_SOURCE_MAP]: for each volume type, the source
    object its class constructs. *)
Variable VOLUME_TYPES_TO_SOURCE_MAP : gmap string Source.
(** [PersistentVolume(model=d)] *)
Variable PersistentVolume_of : Doc -> PersistentVolume.
Variable tr : Transport Doc.
(** The readings of [time.time()], in seconds. *)
Variable clock : nat -> Q.

Local Abbreviation K8sPersistentVolume := (K8sPersistentVolume Config).

(** Methods that touch the object only, and methods that also reach the
    transport or the clock. *)
Definition Obj (A : Type) : Type := M K8sPersistentVolume A.
Definition Meth (A : Type) : Type := M (K8sPersistentVolume * World) A.

Definition set_model (m : PersistentVolume) (self : K8sPersistentVolume)
  : K8sPersistentVolume :=
  {| config := config self; obj_type := obj_type self;
     model := m; _type := _type self |}.

Definition set__type (t : pyval) (self : K8sPersistentVolume)
  : K8sPersistentVolume :=
  {| config := config self; obj_type := obj_type self;
     model := model self; _type := t |}.

(** Modelled from the spec: [Volume.vol_type_to_source] is not among the
    sources.  It yields the empty/default value for that source type: the
    object the class registered for the type constructs. *)
Definition vol_type_to_source (t : pyval) : outcome Source :=
  dict_getitem VOLUME_TYPES_TO_SOURCE_MAP t.

Definition VALID_VOLUME_TYPES : list string :=
  List.filter
    (fun x => negb (bool_decide (x ∈ ["emptyDir"; "gitRepo"; "secret"])))
    (map fst (map_to_list VOLUME_TYPES_TO_SOURCE_MAP)).

(** Modelled from the spec: [K8sObject.__init__] is not among the sources.
    The resource controller holds the configuration, an object-type tag and
    exactly one resource model, constructed empty. *)
Definition K8sObject_init (cfg : Config) (name : pyval) (ty : string)
  : K8sPersistentVolume :=
  {| config := cfg; obj_type := ty;
     model := set_metadata {| meta_name := name; labels := ∅;
                              annotations := ∅ |} PersistentVolume_empty;
     _type := PyNone |}.

(** Modelled from the spec: [K8sObject.create] and [get_model] are not among
    the sources.  Each delegates one call to the transport,
    [create(type, body) -> document] and [get(type, name) -> document], and
    lets the transport's error propagate. *)
Definition K8sObject_create : Meth unit :=
  _ <~ transport_call (t_create tr) ;; ret tt.

Definition get_model : Meth Doc :=
  transport_call (t_get tr).

(** [time.time()] *)
Definition time_time : Meth Q :=
  fun '(self, w) => (Ok (clock (ticks w)), (self, next_tick w)).

(** [name] (getter) *)
Definition name (self : K8sPersistentVolume) : pyval :=
  meta_name (metadata (model self)).

(** [name] (setter) *)
Definition set_name (n : pyval) : Obj unit :=
  modify (fun self =>
    let md := metadata (model self) in
    set_model (set_metadata {| meta_name := n; labels := labels md;
                               annotations := annotations md |}
                            (model self)) self) ;;;
  modify (fun self =>
    let md := metadata (model self) in
    set_model (set_metadata {| meta_name := meta_name md;
                               labels := <["name" := n]> (labels md);
                               annotations := annotations md |}
                            (model self)) self).

(** [type] (getter) *)
Definition type (self : K8sPersistentVolume) : pyval := _type self.

(** [setattr(self.model.spec, t, v)]; the attribute name must be a string. *)
Definition setattr_spec (t : pyval) (v : Source) : Obj unit :=
  match t with
  | PyStr s =>
      modify (fun self =>
        let sp := spec (model self) in
        set_model (set_spec (set_slots (<[s := v]> (slots sp)) sp)
                            (model self)) self)
  | PyNone => raise TypeError
  end.

(** [type] (setter) *)
Definition set_type (t : pyval) : Obj unit :=
  if negb (list_contains VALID_VOLUME_TYPES t) then
    raise (SyntaxError
             ("K8sPersistentVolume: type: [ " ++ py_format t ++ " ] is invalid."))
  else
    modify (set__type t) ;;;
    v <~ lift (vol_type_to_source t) ;;
    setattr_spec t v.

(** [getattr(self.model.spec, self._type, None)]: [None] when the spec has
    no such attribute; the attribute name must be a string. *)
Definition source : Obj (option Source) :=
  fun self =>
    match _type self with
    | PyStr s => (Ok (slots (spec (model self)) !! s), self)
    | PyNone => (Raise TypeError, self)
    end.

(** [self.source.f = v]: the source is the object held by the spec, so the
    write is seen there. *)
Definition source_setattr (f : string) (v : pyval) : Obj unit :=
  o <~ source ;;
  match o with
  | Some src =>
      fun self =>
        match _type self with
        | PyStr s => setattr_spec (PyStr s) (<[f := v]> src) self
        | PyNone => (Raise TypeError, self)
        end
  | None => raise (AttributeError f)
  end.

(** [access_modes] and [capacity] *)
Definition access_modes (self : K8sPersistentVolume) : list string :=
  spec_access_modes (spec (model self)).

Definition set_access_modes (modes : list string) : Obj unit :=
  modify (fun self =>
    let sp := spec (model self) in
    set_model (set_spec {| spec_access_modes := modes;
                           spec_capacity := spec_capacity sp;
                           slots := slots sp |} (model self)) self).

Definition capacity (self : K8sPersistentVolume) : gmap string string :=
  spec_capacity (spec (model self)).

Definition set_capacity (cap : gmap string string) : Obj unit :=
  modify (fun self =>
    let sp := spec (model self) in
    set_model (set_spec {| spec_access_modes := spec_access_modes sp;
                           spec_capacity := cap;
                           slots := slots sp |} (model self)) self).

(** [host_path] (getter) *)
Definition host_path : Obj pyval :=
  o <~ source ;;
  if negb (hasattr o "path") then raise NotImplementedError
  else
    o' <~ source ;;
    lift (getattr o' "path").

(** [host_path] (setter) *)
Definition set_host_path (p : pyval) : Obj unit :=
  o <~ source ;;
  if negb (hasattr o "path") then raise NotImplementedError
  else source_setattr "path" p.

(** [volume_id] (getter) *)
Definition volume_id : Obj pyval :=
  o <~ source ;;
  if negb (hasattr o "volume_id") then raise NotImplementedError
  else
    o' <~ source ;;
    lift (getattr o' "volume_id").

(** [volume_id] (setter) *)
Definition set_volume_id (vid : pyval) : Obj unit :=
  o <~ source ;;
  if negb (hasattr o "volume_id") then raise NotImplementedError
  else source_setattr "volume_id" vid.

(** [pd_name] (getter) *)
Definition pd_name : Obj pyval :=
  o <~ source ;;
  if negb (hasattr o "pd_name") then raise NotImplementedError
  else
    o' <~ source ;;
    lift (getattr o' "pd_name").

(** [pd_name] (setter) *)
Definition set_pd_name (pd : pyval) : Obj unit :=
  o <~ source ;;
  if negb (hasattr o "pd_name") then raise NotImplementedError
  else source_setattr "pd_name" pd.

(** [fs_type] (getter) *)
Definition fs_type : Obj pyval :=
  o <~ source ;;
  if negb (hasattr o "fs_type") then raise NotImplementedError
  else
    o' <~ source ;;
    lift (getattr o' "fs_type").

(** [fs_type] (setter) *)
Definition set_fs_type (t : pyval) : Obj unit :=
  o <~ source ;;
  if negb (hasattr o "fs_type") then raise NotImplementedError
  else source_setattr "fs_type" t.

(** [nfs_server] (getter) *)
Definition nfs_server : Obj pyval :=
  o <~ source ;;
  if negb (hasattr o "server") then raise NotImplementedError
  else
    o' <~ source ;;
    lift (getattr o' "server").

(** [nfs_server] (setter) *)
Definition set_nfs_server (s : pyval) : Obj unit :=
  o <~ source ;;
  if negb (hasattr o "server") then raise NotImplementedError
  else source_setattr "server" s.

(** [nfs_path] (getter) *)
Definition nfs_path : Obj pyval :=
  o <~ source ;;
  if negb (hasattr o "path") then raise NotImplementedError
  else
    o' <~ source ;;
    lift (getattr o' "path").

(** [nfs_path] (setter) *)
Definition set_nfs_path (p : pyval) : Obj unit :=
  o <~ source ;;
  if negb (hasattr o "path") then raise NotImplementedError
  else source_setattr "path" p.

(** The six source-specific properties, the attribute of the source each
    one stands for, and their getters and setters. *)
Inductive accessor : Type :=
| HostPath | VolumeId | PdName | FsType | NfsServer | NfsPath.

Definition field_of (a : accessor) : string :=
  match a with
  | HostPath => "path"
  | VolumeId => "volume_id"
  | PdName => "pd_name"
  | FsType => "fs_type"
  | NfsServer => "server"
  | NfsPath => "path"
  end.

Definition getter (a : accessor) : Obj pyval :=
  match a with
  | HostPath => host_path
  | VolumeId => volume_id
  | PdName => pd_name
  | FsType => fs_type
  | NfsServer => nfs_server
  | NfsPath => nfs_path
  end.

Definition setter (a : accessor) : pyval -> Obj unit :=
  match a with
  | HostPath => set_host_path
  | VolumeId => set_volume_id
  | PdName => set_pd_name
  | FsType => set_fs_type
  | NfsServer => set_nfs_server
  | NfsPath => set_nfs_path
  end.

(** [__init__] *)
Definition __init__ (name type : pyval) : Obj unit :=
  modify (set__type PyNone) ;;;
  modify (set_model PersistentVolume_empty) ;;;
  set_name name ;;;
  set_type type.

(** [K8sPersistentVolume(config, name, type)]: the object, unless
    [__init__] raises. *)
Definition new (cfg : Config) (name type : pyval) : outcome K8sPersistentVolume :=
  match __init__ name type (K8sObject_init cfg name "PersistentVolume") with
  | (Ok _, self) => Ok self
  | (Raise e, _) => Raise e
  | (OutOfFuel, _) => OutOfFuel
  end.

(** [get] *)
Definition get : Meth K8sPersistentVolume :=
  d <~ get_model ;;
  modify (fun '(self, w) => (set_model (PersistentVolume_of d) self, w)) ;;;
  gets fst.

(** The controller after [n] polls answered by [docs 0], ..., [docs (n-1)]:
    each [get()] replaces the model by the parse of the last answer. *)
Definition polled (self : K8sPersistentVolume) (docs : nat -> Doc)
    (n : nat) : K8sPersistentVolume :=
  match n with
  | O => self
  | S k => set_model (PersistentVolume_of (docs k)) self
  end.

(** The [while] loop of [_wait_for_available], unrolled at most [fuel]
    times. *)
Fixpoint wait_loop (fuel : nat) (start_time : Q) : Meth unit :=
  match fuel with
  | O => diverge
  | S fuel' =>
      ph <~ gets (fun st => phase (status (model (fst st)))) ;;
      if negb (py_eq ph (PyStr "Available")) then
        get ;;;
        now <~ time_time ;;
        let elapsed_time := (now - start_time)%Q in
        if Qle_bool READY_WAIT_TIMEOUT_SECONDS elapsed_time then
          n <~ gets (fun st => name (fst st)) ;;
          raise (TimedOutException
                   ("Timed out waiting on readiness of PersistentVolume: [ "
                      ++ py_format n ++ " ]"))
        else wait_loop fuel' start_time
      else ret tt
  end.

(** [_wait_for_available] *)
Definition _wait_for_available (fuel : nat) : Meth unit :=
  start_time <~ time_time ;;
  wait_loop fuel start_time.

(** [create] *)
Definition create (fuel : nat) : Meth K8sPersistentVolume :=
  K8sObject_create ;;;
  _wait_for_available fuel ;;;
  gets fst.

End Controller.
End K8sPersistentVolume.

(** * Concrete collaborators

    A transport and a clock that replay fixed answers, and a table of volume
    types, used to run the definitions on explicit inputs. *)

Module Sample.
Import K8sPersistentVolume.

(** Modelled from the spec: [Volume.VOLUME_TYPES_TO_SOURCE_MAP] is not among
    the sources.  The volume types the specification names (host path, AWS
    EBS, GCE persistent disk, NFS and the three ephemeral ones), each with
    the fields the accessors of [K8sPersistentVolume] read, unset. *)
Definition volume_types : gmap string Source :=
  list_to_map
    [ ("awsElasticBlockStore",
        list_to_map [("volume_id", PyNone); ("fs_type", PyNone)]);
      ("emptyDir", list_to_map [("medium", PyNone)]);
      ("gcePersistentDisk",
        list_to_map [("pd_name", PyNone); ("fs_type", PyNone)]);
      ("gitRepo", list_to_map [("repository", PyNone); ("revision", PyNone)]);
      ("hostPath", list_to_map [("path", PyNone)]);
      ("nfs", list_to_map [("server", PyNone); ("path", PyNone)]);
      ("secret", list_to_map [("secret_name", PyNone)]) ].

(** A document is the model the parser would build from it. *)
Definition pv_doc (nm : string) (ph : string) : PersistentVolume :=
  {| metadata := {| meta_name := PyStr nm;
                    labels := {[ "name" := PyStr nm ]};
                    annotations := ∅ |};
     spec := {| spec_access_modes := []; spec_capacity := ∅; slots := ∅ |};
     status := {| phase := PyStr ph |} |}.

(** A server on which the volume stays pending for ever. *)
Definition pending_forever : Transport PersistentVolume :=
  {| t_create := fun _ => Ok (pv_doc "pv0" "Pending");
     t_update := fun _ => Ok (pv_doc "pv0" "Pending");
     t_get := fun _ => Ok (pv_doc "pv0" "Pending");
     t_list := fun _ => Ok [] |}.

(** A server on which the volume is available from the [n]-th call on. *)
Definition available_from (n : nat) : Transport PersistentVolume :=
  {| t_create := fun _ => Ok (pv_doc "pv0" "Pending");
     t_update := fun _ => Ok (pv_doc "pv0" "Pending");
     t_get := fun i => Ok (pv_doc "pv0" (if (i <? n)%nat then "Pending"
                                         else "Available"));
     t_list := fun _ => Ok [] |}.

(** A clock that advances by [step] seconds between two readings. *)
Definition steady_clock (step : Q) (i : nat) : Q :=
  (inject_Z (Z.of_nat i) * step)%Q.

Definition world0 : World := {| calls := 0; ticks := 0 |}.

(** The controller [K8sPersistentVolume(config, "pv0", "hostPath")]. *)
Definition pv_hostPath : K8sPersistentVolume unit :=
  {| config := tt; obj_type := "PersistentVolume";
     model := {| metadata := {| meta_name := PyStr "pv0";
                                labels := {[ "name" := PyStr "pv0" ]};
                                annotations := ∅ |};
                 spec := {| spec_access_modes := []; spec_capacity := ∅;
                            slots := {[ "hostPath" := {[ "path" := PyNone ]} ]} |};
                 status := {| phase := PyNone |} |};
     _type := PyStr "hostPath" |}.

(** Namespace documents, again in parsed form. *)
Definition ns_doc (nm : string) (ph : string) : K8sNamespace.Namespace :=
  {| K8sNamespace.metadata :=
       {| meta_name := PyStr nm;
          labels := {[ "name" := PyStr nm; "phase" := PyStr ph ]};
          annotations := {[ "owner" := PyStr "ops" ]} |};
     K8sNamespace.spec := {| K8sNamespace.finalizers := ["kubernetes"] |};
     K8sNamespace.status := {| K8sNamespace.phase := PyStr ph |} |}.

Definition ns_server : Transport K8sNamespace.Namespace :=
  {| t_create := fun _ => Ok (ns_doc "dev" "Active");
     t_update := fun _ => Ok (ns_doc "dev" "Active");
     t_get := fun _ => Ok (ns_doc "dev" "Active");
     t_list := fun _ => Ok [ ns_doc "kube-system" "Active";
                             ns_doc "dev" "Active";
                             ns_doc "dev" "Terminating" ] |}.

(** The controller of the namespace ["dev"], as [get()] leaves it. *)
Definition dev : K8sNamespace.K8sNamespace unit :=
  {| K8sNamespace.config := tt; K8sNamespace.obj_type := "Namespace";
     K8sNamespace.model := ns_doc "dev" "Active" |}.

End Sample.

(** * The specification's reading of the [type] setter *)

Section Stated.
Import K8sPersistentVolume.
Context {Config : Type}.
Variable table : gmap string Source.

(** The statement of C3 as the specification has it: after [type = t], for
    [t] valid, [type] reads [t] and the slot of [t], holding the default
    source of [t], is the only populated slot of the spec. *)
Definition type_set_leaves_one_slot (self : K8sPersistentVolume Config)
    (s : string) : Prop :=
  s ∈ VALID_VOLUME_TYPES table ->
  exists v self',
    table !! s = Some v /\
    set_type table (PyStr s) self = (Ok tt, self') /\
    type self' = PyStr s /\
    slots (spec (model self')) = {[ s := v ]}.

End Stated.

(** * Further notions used in the properties *)

Section Invariants.
Import K8sPersistentVolume.
Context {Config : Type}.

(** The label ["name"] of a persistent volume mirrors [metadata.name]. *)
Definition name_label_synced (self : K8sPersistentVolume Config) : Prop :=
  labels (metadata (model self)) !! "name" = Some (name self).

(** What [K8sPersistentVolume(config, name, s)] builds when [v] is the
    default source of [s]. *)
Definition constructed (cfg : Config) (nm : pyval) (s : string) (v : Source)
  : K8sPersistentVolume Config :=
  {| config := cfg; obj_type := "PersistentVolume";
     model := {| metadata := {| meta_name := nm;
                                labels := {[ "name" := nm ]};
                                annotations := ∅ |};
                 spec := {| spec_access_modes := []; spec_capacity := ∅;
                            slots := {[ s := v ]} |};
                 status := {| phase := PyNone |} |};
     _type := PyStr s |}.

End Invariants.

(** Transports that fail. *)
Module Faulty.
Import K8sPersistentVolume Sample.

(** The volume is pending on the first [n] calls; then the server answers
    404. *)
Definition gone_after (n : nat) : Transport PersistentVolume :=
  {| t_create := fun _ => Ok (pv_doc "pv0" "Pending");
     t_update := fun _ => Ok (pv_doc "pv0" "Pending");
     t_get := fun i => if (i <? n)%nat then Ok (pv_doc "pv0" "Pending")
                       else Raise (TransportError 404);
     t_list := fun _ => Raise (TransportError 404) |}.

(** Every submission is refused with 409. *)
Definition conflict : Transport PersistentVolume :=
  {| t_create := fun _ => Raise (TransportError 409);
     t_update := fun _ => Raise (TransportError 409);
     t_get := fun _ => Ok (pv_doc "pv0" "Available");
     t_list := fun _ => Ok [] |}.

(** Namespaces: submissions are accepted, reads fail with 500. *)
Definition ns_unreadable : Transport K8sNamespace.Namespace :=
  {| t_create := fun _ => Ok (ns_doc "dev" "Active");
     t_update := fun _ => Ok (ns_doc "dev" "Active");
     t_get := fun _ => Raise (TransportError 500);
     t_list := fun _ => Raise (TransportError 500) |}.

(** A host-path volume whose path was set. *)
Definition pv_data : K8sPersistentVolume unit :=
  {| config := tt; obj_type := "PersistentVolume";
     model := {| metadata := {| meta_name := PyStr "pv0";
                                labels := {[ "name" := PyStr "pv0" ]};
                                annotations := ∅ |};
                 spec := {| spec_access_modes := ["ReadWriteOnce"];
                            spec_capacity := {[ "storage" := "1Gi" ]};
                            slots := {[ "hostPath" := {[ "path" := PyStr "/data" ]} ]} |};
                 status := {| phase := PyStr "Available" |} |};
     _type := PyStr "hostPath" |}.

(** An NFS volume. *)
Definition pv_nfs : K8sPersistentVolume unit :=
  {| config := tt; obj_type := "PersistentVolume";
     model := {| metadata := {| meta_name := PyStr "pv1";
                                labels := {[ "name" := PyStr "pv1" ]};
                                annotations := ∅ |};
                 spec := {| spec_access_modes := []; spec_capacity := ∅;
                            slots := {[ "nfs" := {[ "server" := PyNone;
                                                    "path" := PyNone ]} ]} |};
                 status := {| phase := PyNone |} |};
     _type := PyStr "nfs" |}.

End Faulty.

(** * The specification's reading of the polling loop *)

Section StatedPolling.
Import K8sPersistentVolume.
Context {Config Doc : Type}.
Variable PersistentVolume_of : Doc -> PersistentVolume.
Variable tr : Transport Doc.
Variable clock : nat -> Q.

(** The statement of C1 as the specification has it, for any controller at
    the entry of the loop: against a server that answers every [get()] and
    never reports ["Available"], the loop raises [TimedOutException] at the
    first poll after which 60 seconds or more have elapsed. *)
Definition times_out_whatever_the_entry (self : K8sPersistentVolume Config)
    (w : World) (docs : nat -> Doc) : Prop :=
  (forall i, t_get tr (calls w + i) = Ok (docs i)) ->
  (forall i, Pending (PersistentVolume_of (docs i))) ->
  forall k fuel,
    (forall i, (i < k)%nat ->
       (clock (ticks w + S i) - clock (ticks w) < READY_WAIT_TIMEOUT_SECONDS)%Q) ->
    (READY_WAIT_TIMEOUT_SECONDS <= clock (ticks w + S k) - clock (ticks w))%Q ->
    (k < fuel)%nat ->
    exists msg st,
      _wait_for_available PersistentVolume_of tr clock fuel (self, w)
      = (Raise (TimedOutException msg), st).

(** The statement of C2 as the specification has it, for any controller at
    the entry of the loop: against a server that reports ["Pending"] on the
    first [N] calls of [get()] and ["Available"] on the next one, within the
    budget, the loop returns after [N + 1] polls. *)
Definition returns_after_polls_whatever_the_entry
    (self : K8sPersistentVolume Config) (w : World) (docs : nat -> Doc)
    (N fuel : nat) : Prop :=
  (forall i, (i <= N)%nat -> t_get tr (calls w + i) = Ok (docs i)) ->
  (forall i, (i < N)%nat ->
     phase (status (PersistentVolume_of (docs i))) = PyStr "Pending") ->
  Available (PersistentVolume_of (docs N)) ->
  (forall i, (i <= N)%nat ->
     (clock (ticks w + S i) - clock (ticks w) < READY_WAIT_TIMEOUT_SECONDS)%Q) ->
  (S N < fuel)%nat ->
  exists self' w',
    _wait_for_available PersistentVolume_of tr clock fuel (self, w)
    = (Ok tt, (self', w')) /\
    calls w' = (calls w + S N)%nat.

End StatedPolling.

(** * Properties *)

(** ** Running methods *)

Lemma bind_ok {St A B} (c : M St A) (k : A -> M St B) s a s' :
  c s = (Ok a, s') -> bind c k s = k a s'.
Proof. intros H. unfold bind. now rewrite H. Qed.

Lemma bind_raise {St A B} (c : M St A) (k : A -> M St B) s e s' :
  c s = (Raise e, s') -> bind c k s = (Raise e, s').
Proof. intros H. unfold bind. now rewrite H. Qed.

Lemma dict_contains_lookup {V} (d : gmap string V) k :
  dict_contains d k = bool_decide (is_Some (dict_lookup d k)).
Proof.
  now destruct k.
Qed.

Lemma dict_getitem_lookup {V} (d : gmap string V) k v :
  dict_lookup d k = Some v -> dict_getitem d k = Ok v.
Proof. destruct k as [|s]; simpl; [discriminate|]. now intros ->. Qed.

(** ** K8sNamespace *)

Section NamespaceProperties.
Import K8sNamespace.
Context {Config Doc : Type}.
Variable Namespace_of : Doc -> Namespace.
Variable tr : Transport Doc.

Lemma lookup_or_none (d : gmap string pyval) k :
  (if dict_contains d k then dict_getitem d k else Ok PyNone)
  = Ok (default PyNone (dict_lookup d k)).
Proof.
  rewrite dict_contains_lookup.
  destruct (dict_lookup d k) as [v|] eqn:E.
  - rewrite bool_decide_eq_true_2 by eauto. now apply dict_getitem_lookup.
  - rewrite bool_decide_eq_false_2; [done|]. intros [v Hv]. discriminate.
Qed.

(** C6. [get_label(k)] and [get_annotation(k)] never raise: each returns the
    value the labels (annotations) mapping of the model's metadata holds for
    [k] when there is one, and [None] when [k] is not present. *)
Theorem get_label_get_annotation_lookup (self : K8sNamespace Config) (k : pyval) :
  let ls := labels (metadata (model self)) in
  let ans := annotations (metadata (model self)) in
  (forall v, dict_lookup ls k = Some v -> get_label k self = Ok v) /\
  (dict_lookup ls k = None -> get_label k self = Ok PyNone) /\
  (forall v, dict_lookup ans k = Some v -> get_annotation k self = Ok v) /\
  (dict_lookup ans k = None -> get_annotation k self = Ok PyNone) /\
  (exists v, get_label k self = Ok v) /\
  (exists v, get_annotation k self = Ok v).
Proof.
  intros ls ans. unfold get_label, get_annotation. fold ls ans.
  rewrite !lookup_or_none.
  repeat split; try (intros v ->; done); try (intros ->; done); eauto.
Qed.

(** The [for] loop of [list] builds one controller per document, in the
    order of the listing. *)
Lemma fold_list_step (self : K8sNamespace Config) (ns : Datatypes.list Doc) acc :
  fold_left (list_step Namespace_of self) ns acc
  = (acc ++ map (fun x => {| config := config self; obj_type := "Namespace";
                             model := Namespace_of x |}) ns)%list.
Proof.
  revert acc. induction ns as [|x ns IH]; intros acc; simpl.
  - now rewrite app_nil_r.
  - rewrite IH. unfold list_step at 1. simpl. now rewrite <- app_assoc.
Qed.

Lemma list_run (self : K8sNamespace Config) (w : World) :
  list Namespace_of tr (self, w)
  = match t_list tr (calls w) with
    | Ok ns => (Ok (map (fun x => {| config := config self;
                                     obj_type := "Namespace";
                                     model := Namespace_of x |}) ns),
                (self, next_call w))
    | Raise e => (Raise e, (self, next_call w))
    | OutOfFuel => (OutOfFuel, (self, next_call w))
    end.
Proof.
  unfold list, K8sObject_list, bind, transport_call, gets, ret. simpl.
  destruct (t_list tr (calls w)); try reflexivity.
  now rewrite fold_list_step.
Qed.

(** The first element of a filtered list is the first element that passes
    the test. *)
Lemma filter_first {A} (f : A -> bool) pre x post :
  Forall (fun y => f y = false) pre -> f x = true ->
  List.filter f (pre ++ x :: post)%list = x :: List.filter f post.
Proof.
  intros Hpre Hx. induction Hpre as [|y pre Hy _ IH]; simpl.
  - now rewrite Hx.
  - now rewrite Hy.
Qed.

Lemma filter_none {A} (f : A -> bool) l :
  Forall (fun y => f y = false) l -> List.filter f l = [].
Proof.
  induction 1 as [|y l Hy _ IH]; simpl; [done|]. now rewrite Hy.
Qed.

(** C7. [get_by_name] lists the resources once; on an empty listing it
    returns [None]; when the listing has an element of the given name it
    returns the first such element in the order of the listing, which is
    the only one when there is exactly one; when no element has the name it
    returns [None]. *)
Theorem get_by_name_first_match (cfg : Config) (nm : pyval) (w : World)
    (docs : Datatypes.list Doc) :
  t_list tr (calls w) = Ok docs ->
  let ctl d := {| config := cfg; obj_type := "Namespace";
                  model := Namespace_of d |} in
  let named d := meta_name (metadata (Namespace_of d)) = nm in
  (docs = [] ->
   get_by_name Namespace_of tr cfg nm w = (Ok None, next_call w)) /\
  (forall pre d post,
     docs = (pre ++ d :: post)%list -> Forall (fun d' => ~ named d') pre -> named d ->
     get_by_name Namespace_of tr cfg nm w = (Ok (Some (ctl d)), next_call w)) /\
  (Forall (fun d' => ~ named d') docs ->
   get_by_name Namespace_of tr cfg nm w = (Ok None, next_call w)).
Proof.
  intros Hlist ctl named.
  assert (Hrun : get_by_name Namespace_of tr cfg nm w
                 = (Ok (head (List.filter (fun x => py_eq (name x) nm)
                                          (map ctl docs))), next_call w)).
  { unfold get_by_name, bind, on_object. rewrite list_run, Hlist. simpl.
    fold ctl. now destruct (List.filter _ _). }
  assert (Hno : forall l, Forall (fun d' => ~ named d') l ->
                Forall (fun y => py_eq (name y) nm = false) (map ctl l)).
  { intros l Hl. apply Forall_map. eapply Forall_impl; [exact Hl|].
    intros d' Hd'. simpl. now apply bool_decide_eq_false. }
  rewrite Hrun. split; [|split].
  - now intros ->.
  - intros pre d post -> Hpre Hd.
    rewrite map_app. simpl.
    rewrite filter_first; [done|now apply Hno|].
    now apply bool_decide_eq_true.
  - intros Hall. now rewrite filter_none by now apply Hno.
Qed.

(** C8. A successful [create()] or [update()] of a namespace is followed by
    a [get()]: the controller's model becomes the parse of the document the
    server then returns, whatever the model held before, and the operation
    returns the controller itself. *)
Theorem create_update_refetch (self : K8sNamespace Config) (w : World)
    (d0 d : Doc) :
  t_get tr (S (calls w)) = Ok d ->
  let self' := {| config := config self; obj_type := obj_type self;
                  model := Namespace_of d |} in
  let w' := {| calls := S (S (calls w)); ticks := ticks w |} in
  (t_create tr (calls w) = Ok d0 ->
   create Namespace_of tr (self, w) = (Ok self', (self', w'))) /\
  (t_update tr (calls w) = Ok d0 ->
   update Namespace_of tr (self, w) = (Ok self', (self', w'))).
Proof.
  intros Hget self' w'.
  split; intros Hpost;
    unfold create, update, get, K8sObject_create, K8sObject_update, get_model,
      assign_model, bind, transport_call, gets, modify, ret; simpl;
    rewrite Hpost; simpl; rewrite Hget; reflexivity.
Qed.

End NamespaceProperties.

(** ** K8sPersistentVolume: volume types *)

Section VolumeTypeProperties.
Import K8sPersistentVolume.
Context {Config : Type}.
Variable table : gmap string Source.

Local Abbreviation VALID := (VALID_VOLUME_TYPES table).
Local Abbreviation invalid_type_error t :=
  (SyntaxError ("K8sPersistentVolume: type: [ " ++ py_format t ++ " ] is invalid.")).

(** The valid types are the keys of the table, less the ephemeral ones. *)
Lemma elem_of_VALID (s : string) :
  s ∈ VALID <->
  is_Some (table !! s) /\ s ∉ ["emptyDir"; "gitRepo"; "secret"].
Proof.
  unfold VALID_VOLUME_TYPES.
  rewrite list_elem_of_In, filter_In, negb_true_iff, bool_decide_eq_false.
  rewrite <- list_elem_of_In, list_elem_of_fmap.
  split.
  - intros [[[k v] [-> Hkv]] Hne]. split; [|done].
    apply elem_of_map_to_list in Hkv. eauto.
  - intros [[v Hv] Hne]. split; [|done].
    exists (s, v). split; [done|]. now apply elem_of_map_to_list.
Qed.

Lemma ephemeral_not_VALID (s : string) :
  s ∈ ["emptyDir"; "gitRepo"; "secret"] -> list_contains VALID (PyStr s) = false.
Proof.
  intros Hs. simpl. apply bool_decide_eq_false_2.
  rewrite elem_of_VALID. tauto.
Qed.

Lemma set_type_reject (self : K8sPersistentVolume Config) (t : pyval) :
  list_contains VALID t = false ->
  set_type table t self = (Raise (invalid_type_error t), self).
Proof. intros H. unfold set_type. now rewrite H. Qed.

Lemma set_type_accept (self : K8sPersistentVolume Config) (s : string) :
  s ∈ VALID ->
  exists v, table !! s = Some v /\
    set_type table (PyStr s) self
    = (Ok tt,
       {| config := config self; obj_type := obj_type self;
          model := {| metadata := metadata (model self);
                      spec := set_slots (<[s := v]> (slots (spec (model self))))
                                        (spec (model self));
                      status := status (model self) |};
          _type := PyStr s |}).
Proof.
  intros Hs. pose proof Hs as Hs'. apply elem_of_VALID in Hs' as [[v Hv] _].
  exists v. split; [done|].
  unfold set_type. simpl. rewrite bool_decide_eq_true_2 by done. simpl.
  unfold bind, modify, lift, vol_type_to_source. simpl. now rewrite Hv.
Qed.

(** C4. Assigning to [type] a value that is not among the valid volume
    types, the ephemeral ["emptyDir"], ["gitRepo"] and ["secret"] in
    particular, raises [SyntaxError] and leaves the controller as it was:
    the active type and every slot of the spec are those of before. *)
Theorem set_type_invalid_unchanged (self : K8sPersistentVolume Config) :
  (forall t : pyval,
     list_contains VALID t = false ->
     set_type table t self = (Raise (invalid_type_error t), self)) /\
  (forall s : string,
     s ∈ ["emptyDir"; "gitRepo"; "secret"] ->
     set_type table (PyStr s) self = (Raise (invalid_type_error (PyStr s)), self)).
Proof.
  split.
  - intros t Ht. now apply set_type_reject.
  - intros s Hs. now apply set_type_reject, ephemeral_not_VALID.
Qed.

(** C3, as the code has it. Assigning a valid [t] to [type] succeeds; then
    [type] reads [t], the slot of [t] holds the default source of [t], and
    every other slot, like the rest of the object, is as it was before.  So
    exactly one slot is populated when no other slot was populated before
    the assignment, which is how [__init__] calls the setter. *)
Theorem set_type_valid_populates_slot (self : K8sPersistentVolume Config)
    (s : string) :
  s ∈ VALID ->
  exists v self',
    table !! s = Some v /\
    vol_type_to_source table (PyStr s) = Ok v /\
    set_type table (PyStr s) self = (Ok tt, self') /\
    type self' = PyStr s /\
    slots (spec (model self')) = <[s := v]> (slots (spec (model self))) /\
    slots (spec (model self')) !! s = Some v /\
    (forall s', s' ≠ s ->
       slots (spec (model self')) !! s' = slots (spec (model self)) !! s') /\
    ((forall s', s' ≠ s -> slots (spec (model self)) !! s' = None) ->
     slots (spec (model self')) = {[ s := v ]}) /\
    config self' = config self /\ obj_type self' = obj_type self /\
    metadata (model self') = metadata (model self) /\
    status (model self') = status (model self) /\
    spec_access_modes (spec (model self')) = spec_access_modes (spec (model self)) /\
    spec_capacity (spec (model self')) = spec_capacity (spec (model self)).
Proof.
  intros Hs. destruct (set_type_accept self s Hs) as (v & Hv & Hrun).
  eexists v, _. split; [done|]. split.
  { unfold vol_type_to_source. simpl. now rewrite Hv. }
  split; [exact Hrun|]. simpl.
  repeat split.
  - apply lookup_insert_eq.
  - intros s' Hne. now apply lookup_insert_ne.
  - intros Hothers. apply map_eq. intros s'.
    destruct (decide (s' = s)) as [->|Hne].
    + now rewrite lookup_insert_eq, lookup_singleton_eq.
    + rewrite lookup_insert_ne, lookup_singleton_ne by done. now apply Hothers.
Qed.

(** [__init__] runs the [type] setter last, on an empty model. *)
Lemma init_run (cfg : Config) (name t : pyval) :
  __init__ table name t (K8sObject_init cfg name "PersistentVolume")
  = set_type table t
      {| config := cfg; obj_type := "PersistentVolume";
         model := {| metadata := {| meta_name := name;
                                    labels := {[ "name" := name ]};
                                    annotations := ∅ |};
                     spec := spec PersistentVolume_empty;
                     status := status PersistentVolume_empty |};
         _type := PyNone |}.
Proof. reflexivity. Qed.

(** A controller that was constructed starts with the empty model's
    status, and with one populated slot. *)
Lemma new_fresh_model (cfg : Config) (name t : pyval)
    (self : K8sPersistentVolume Config) :
  new table cfg name t = Ok self ->
  phase (status (model self)) = PyNone /\
  exists s v, t = PyStr s /\ table !! s = Some v /\
              slots (spec (model self)) = {[ s := v ]}.
Proof.
  unfold new. rewrite init_run.
  destruct (list_contains VALID t) eqn:Hin.
  - destruct t as [|s]; [discriminate|]. simpl in Hin.
    apply bool_decide_eq_true in Hin.
    match goal with
    | |- context [set_type table (PyStr s) ?self0] =>
        destruct (set_type_accept self0 s Hin) as (v & Hv & ->)
    end.
    intros [= <-]. split; [reflexivity|]. exists s, v. simpl.
    now rewrite insert_empty.
  - rewrite set_type_reject by done. discriminate.
Qed.

(** C9. Constructing a [K8sPersistentVolume] with [type] omitted or [None]
    raises the [SyntaxError] of the [type] setter, the constructor assigning
    the type through that setter; so a controller that was constructed has a
    valid volume type as its active type. *)
Theorem new_needs_valid_type (cfg : Config) (name : pyval) :
  new table cfg name PyNone = Raise (invalid_type_error PyNone) /\
  (forall self0 : K8sPersistentVolume Config,
     set_type table PyNone self0 = (Raise (invalid_type_error PyNone), self0)) /\
  (forall (t : pyval) (self : K8sPersistentVolume Config),
     new table cfg name t = Ok self ->
     exists s, t = PyStr s /\ s ∈ VALID /\ type self = PyStr s).
Proof.
  split; [|split].
  - unfold new. rewrite init_run. now rewrite set_type_reject.
  - intros self0. now apply set_type_reject.
  - intros t self. unfold new. rewrite init_run.
    destruct (list_contains VALID t) eqn:Hin.
    + destruct t as [|s]; [discriminate|]. simpl in Hin.
      apply bool_decide_eq_true in Hin.
      destruct (set_type_accept
                  {| config := cfg; obj_type := "PersistentVolume";
                     model := {| metadata := {| meta_name := name;
                                                labels := {[ "name" := name ]};
                                                annotations := ∅ |};
                                 spec := spec PersistentVolume_empty;
                                 status := status PersistentVolume_empty |};
                     _type := PyNone |} s Hin) as (v & _ & ->).
      intros [= <-]. now exists s.
    + rewrite set_type_reject by done. discriminate.
Qed.

(** C10. Assigning [n] to the [name] property writes [n] to
    [metadata.name] and to the label ["name"] of the model's metadata, and
    changes nothing else: annotations, the other labels, spec, status and
    the rest of the controller are as before. *)
Theorem set_name_writes_name_and_label (self : K8sPersistentVolume Config)
    (n : pyval) :
  exists self',
    set_name n self = (Ok tt, self') /\
    name self' = n /\
    labels (metadata (model self')) = <["name" := n]> (labels (metadata (model self))) /\
    labels (metadata (model self')) !! "name" = Some n /\
    (forall k, k ≠ "name" ->
       labels (metadata (model self')) !! k = labels (metadata (model self)) !! k) /\
    annotations (metadata (model self')) = annotations (metadata (model self)) /\
    spec (model self') = spec (model self) /\
    status (model self') = status (model self) /\
    config self' = config self /\ obj_type self' = obj_type self /\
    _type self' = _type self.
Proof.
  eexists. split; [reflexivity|]. simpl. repeat split.
  - apply lookup_insert_eq.
  - intros k Hk. now apply lookup_insert_ne.
Qed.

End VolumeTypeProperties.

(** ** K8sPersistentVolume: source-specific accessors *)

Section AccessorProperties.
Import K8sPersistentVolume.
Context {Config : Type}.

Lemma source_run (self : K8sPersistentVolume Config) (t : string) :
  _type self = PyStr t ->
  source self = (Ok (slots (spec (model self)) !! t), self).
Proof. intros H. unfold source. now rewrite H. Qed.

(** A getter and a setter guarded by [hasattr(self.source, f)]. *)
Lemma guarded_get (self : K8sPersistentVolume Config) (t f : string) :
  _type self = PyStr t ->
  (o <~ source ;;
   if negb (hasattr o f) then raise NotImplementedError
   else o' <~ source ;; lift (getattr o' f)) self
  = match slots (spec (model self)) !! t with
    | Some src => match src !! f with
                  | Some v => (Ok v, self)
                  | None => (Raise NotImplementedError, self)
                  end
    | None => (Raise NotImplementedError, self)
    end.
Proof.
  intros H. unfold bind. rewrite (source_run self t H).
  destruct (slots (spec (model self)) !! t) as [src|] eqn:Hsrc; simpl; [|done].
  destruct (src !! f) as [v|] eqn:Hf; simpl; [|done].
  rewrite (source_run self t H), Hsrc. unfold lift. simpl. now rewrite Hf.
Qed.

Lemma guarded_set (self : K8sPersistentVolume Config) (t f : string) (p : pyval) :
  _type self = PyStr t ->
  (o <~ source ;;
   if negb (hasattr o f) then raise NotImplementedError
   else source_setattr f p) self
  = match slots (spec (model self)) !! t with
    | Some src =>
        match src !! f with
        | Some _ =>
            (Ok tt,
             set_model
               (set_spec
                  (set_slots (<[t := <[f := p]> src]> (slots (spec (model self))))
                             (spec (model self)))
                  (model self)) self)
        | None => (Raise NotImplementedError, self)
        end
    | None => (Raise NotImplementedError, self)
    end.
Proof.
  intros H. unfold bind. rewrite (source_run self t H).
  destruct (slots (spec (model self)) !! t) as [src|] eqn:Hsrc; simpl; [|done].
  destruct (src !! f) as [v|] eqn:Hf; simpl; [|done].
  unfold source_setattr, bind. rewrite (source_run self t H), Hsrc, H.
  reflexivity.
Qed.


End AccessorProperties.

(** ** K8sPersistentVolume: readiness polling *)

Section PollingProperties.
Import K8sPersistentVolume.
Context {Config Doc : Type}.
Variable PersistentVolume_of : Doc -> PersistentVolume.
Variable tr : Transport Doc.
Variable clock : nat -> Q.

Local Abbreviation wait_loop := (wait_loop PersistentVolume_of tr clock).
Local Abbreviation polled := (polled PersistentVolume_of).
Local Abbreviation timed_out d :=
  (TimedOutException
     ("Timed out waiting on readiness of PersistentVolume: [ "
        ++ py_format (meta_name (metadata (PersistentVolume_of d))) ++ " ]")).

Lemma Qle_bool_false (x y : Q) : (y < x)%Q -> Qle_bool x y = false.
Proof.
  intros Hlt. destruct (Qle_bool x y) eqn:E; [|done].
  apply Qle_bool_iff in E. now apply Qlt_not_le in Hlt.
Qed.

Lemma py_eq_false (x y : pyval) : x ≠ y -> py_eq x y = false.
Proof. intros H. now apply bool_decide_eq_false_2. Qed.

(** One turn of the loop when the local phase is ["Available"]. *)
Lemma wait_loop_available fuel start (self : K8sPersistentVolume Config) w :
  phase (status (model self)) = PyStr "Available" ->
  wait_loop (S fuel) start (self, w) = (Ok tt, (self, w)).
Proof.
  intros H. simpl. unfold bind, gets. simpl. rewrite H. reflexivity.
Qed.

(** One turn of the loop when it is not: a poll, a reading of the clock,
    and the test of the budget. *)
Lemma wait_loop_poll fuel start (self : K8sPersistentVolume Config) c t d :
  phase (status (model self)) ≠ PyStr "Available" ->
  t_get tr c = Ok d ->
  wait_loop (S fuel) start (self, {| calls := c; ticks := t |})
  = if Qle_bool READY_WAIT_TIMEOUT_SECONDS (clock t - start)
    then (Raise (timed_out d),
          (set_model (PersistentVolume_of d) self,
           {| calls := S c; ticks := S t |}))
    else wait_loop fuel start
           (set_model (PersistentVolume_of d) self,
            {| calls := S c; ticks := S t |}).
Proof.
  intros Hph Hget. cbn [K8sPersistentVolume.wait_loop].
  unfold bind at 1. unfold gets at 1. cbn [fst].
  rewrite (py_eq_false _ _ Hph). cbn [negb].
  unfold bind at 1. unfold get, get_model, bind at 1, transport_call.
  cbn [calls]. rewrite Hget.
  unfold bind at 1, modify, gets, time_time. cbn.
  destruct (Qle_bool READY_WAIT_TIMEOUT_SECONDS (clock t - start)); reflexivity.
Qed.

Lemma polled_step (self : K8sPersistentVolume Config) docs n :
  set_model (PersistentVolume_of (docs n)) (polled self docs n)
  = polled self docs (S n).
Proof. now destruct n. Qed.

(** [n] polls that find the volume not yet available, within the budget. *)
Lemma wait_loop_polls n fuel start (self : K8sPersistentVolume Config) c t docs :
  phase (status (model self)) ≠ PyStr "Available" ->
  (forall i, (i < n)%nat -> t_get tr (c + i) = Ok (docs i)) ->
  (forall i, (i < n)%nat ->
     phase (status (PersistentVolume_of (docs i))) ≠ PyStr "Available") ->
  (forall i, (i < n)%nat ->
     (clock (t + i) - start < READY_WAIT_TIMEOUT_SECONDS)%Q) ->
  wait_loop (n + fuel) start (self, {| calls := c; ticks := t |})
  = wait_loop fuel start
      (polled self docs n, {| calls := c + n; ticks := t + n |}).
Proof.
  intros Hentry. revert fuel.
  induction n as [|n IH]; intros fuel Hget Hpend Hclock.
  - simpl. now rewrite !Nat.add_0_r.
  - replace (S n + fuel)%nat with (n + S fuel)%nat by lia.
    rewrite IH by (intros; auto with lia).
    rewrite (wait_loop_poll _ _ _ _ _ (docs n)).
    + rewrite Qle_bool_false by (apply Hclock; lia).
      rewrite polled_step. do 3 f_equal; lia.
    + destruct n as [|k]; simpl; [done|]. apply Hpend. lia.
    + apply Hget. lia.
Qed.

(** C1. Entered in the [Pending] state (the local phase is not
    ["Available"], as on a controller just constructed), against a server
    that answers every [get()] and never reports ["Available"], the loop
    raises [TimedOutException] at the first poll after which the time
    elapsed since the loop began is 60 seconds or more, with a message that
    carries the name of the volume; as long as the elapsed time read after
    each poll is below 60 seconds it neither raises nor returns. *)
Theorem wait_for_available_times_out (self : K8sPersistentVolume Config)
    (w : World) (docs : nat -> Doc) :
  Pending (model self) ->
  (forall i, t_get tr (calls w + i) = Ok (docs i)) ->
  (forall i, Pending (PersistentVolume_of (docs i))) ->
  let elapsed i := (clock (ticks w + S i) - clock (ticks w))%Q in
  (forall k fuel,
     (forall i, (i < k)%nat -> (elapsed i < READY_WAIT_TIMEOUT_SECONDS)%Q) ->
     (READY_WAIT_TIMEOUT_SECONDS <= elapsed k)%Q ->
     (k < fuel)%nat ->
     _wait_for_available PersistentVolume_of tr clock fuel (self, w)
     = (Raise (timed_out (docs k)),
        (set_model (PersistentVolume_of (docs k)) self,
         {| calls := calls w + S k; ticks := ticks w + S (S k) |}))) /\
  (forall fuel,
     (forall i, (i < fuel)%nat -> (elapsed i < READY_WAIT_TIMEOUT_SECONDS)%Q) ->
     fst (_wait_for_available PersistentVolume_of tr clock fuel (self, w))
     = OutOfFuel).
Proof.
  intros Hentry Hget Hpend elapsed. unfold Pending in Hentry, Hpend.
  assert (Hstart : forall fuel,
            _wait_for_available PersistentVolume_of tr clock fuel (self, w)
            = wait_loop fuel (clock (ticks w))
                (self, {| calls := calls w; ticks := S (ticks w) |})).
  { intros fuel. now destruct w. }
  split.
  - intros k fuel Hbelow Hreach Hfuel. rewrite Hstart.
    replace fuel with (k + S (fuel - S k))%nat by lia.
    rewrite (wait_loop_polls k _ _ _ _ _ docs); auto.
    + rewrite (wait_loop_poll _ _ _ _ _ (docs k)).
      * replace (S (ticks w) + k)%nat with (ticks w + S k)%nat by lia.
        fold (elapsed k). apply Qle_bool_iff in Hreach. rewrite Hreach.
        destruct k; simpl; do 3 f_equal; lia.
      * destruct k as [|k']; simpl; auto.
      * apply Hget.
    + intros i Hi. replace (S (ticks w) + i)%nat with (ticks w + S i)%nat by lia.
      now apply Hbelow.
  - intros fuel Hbelow. rewrite Hstart.
    replace fuel with (fuel + 0)%nat at 1 by lia.
    rewrite (wait_loop_polls fuel _ _ _ _ _ docs); auto.
    intros i Hi. replace (S (ticks w) + i)%nat with (ticks w + S i)%nat by lia.
    now apply Hbelow.
Qed.

(** C2. Entered in the [Pending] state, against a server
    that reports ["Pending"] on the first [N] calls of [get()] and
    ["Available"] on the next one, and with the elapsed time read after each
    of these polls below 60 seconds, the loop returns after exactly [N + 1]
    polls, the model being the parse of the answer that reported
    ["Available"]. *)
Theorem wait_for_available_returns (self : K8sPersistentVolume Config)
    (w : World) (docs : nat -> Doc) (N fuel : nat) :
  Pending (model self) ->
  (forall i, (i <= N)%nat -> t_get tr (calls w + i) = Ok (docs i)) ->
  (forall i, (i < N)%nat ->
     phase (status (PersistentVolume_of (docs i))) = PyStr "Pending") ->
  Available (PersistentVolume_of (docs N)) ->
  (forall i, (i <= N)%nat ->
     (clock (ticks w + S i) - clock (ticks w) < READY_WAIT_TIMEOUT_SECONDS)%Q) ->
  (S N < fuel)%nat ->
  _wait_for_available PersistentVolume_of tr clock fuel (self, w)
  = (Ok tt,
     (set_model (PersistentVolume_of (docs N)) self,
      {| calls := calls w + S N; ticks := ticks w + S (S N) |})).
Proof.
  intros Hentry Hget Hpend Havail Hclock Hfuel.
  unfold Pending in Hentry. unfold Available in Havail.
  assert (Hstart : _wait_for_available PersistentVolume_of tr clock fuel (self, w)
                   = wait_loop fuel (clock (ticks w))
                       (self, {| calls := calls w; ticks := S (ticks w) |})).
  { now destruct w. }
  rewrite Hstart.
  replace fuel with (N + S (S (fuel - S (S N))))%nat by lia.
  rewrite (wait_loop_polls N _ _ _ _ _ docs); auto with lia.
  - rewrite (wait_loop_poll _ _ _ _ _ (docs N)).
    + rewrite Qle_bool_false.
      * rewrite polled_step, wait_loop_available by exact Havail.
        simpl. do 3 f_equal; lia.
      * replace (S (ticks w) + N)%nat with (ticks w + S N)%nat by lia.
        now apply Hclock.
    + destruct N as [|k]; simpl; [done|]. rewrite Hpend by lia. discriminate.
    + now apply Hget.
  - intros i Hi. rewrite Hpend by lia. discriminate.
  - intros i Hi. replace (S (ticks w) + i)%nat with (ticks w + S i)%nat by lia.
    apply Hclock. lia.
Qed.

End PollingProperties.

(** * Concrete runs *)

Section Runs.
Import K8sPersistentVolume Sample.

(** ["hostPath"] and ["nfs"] are valid types of the sample table. *)
Lemma hostPath_valid : "hostPath" ∈ VALID_VOLUME_TYPES volume_types.
Proof. apply (bool_decide_unpack _). vm_compute. exact I. Qed.

Lemma nfs_valid : "nfs" ∈ VALID_VOLUME_TYPES volume_types.
Proof. apply (bool_decide_unpack _). vm_compute. exact I. Qed.

(** The sample controller is the one the constructor builds. *)
Example new_hostPath :
  new volume_types tt (PyStr "pv0") (PyStr "hostPath") = Ok pv_hostPath.
Proof. vm_compute. reflexivity. Qed.

(** What a second assignment to [type] leaves: both slots populated. *)
Example set_type_nfs_after_hostPath :
  set_type volume_types (PyStr "nfs") pv_hostPath
  = (Ok tt,
     set__type (PyStr "nfs")
       (set_model
          (set_spec
             {| spec_access_modes := []; spec_capacity := ∅;
                slots := {[ "hostPath" := {[ "path" := PyNone ]};
                            "nfs" := {[ "server" := PyNone; "path" := PyNone ]} ]} |}
             (model pv_hostPath)) pv_hostPath)).
Proof. vm_compute. reflexivity. Qed.

(** C3 does not hold as stated: on a controller constructed with type
    ["hostPath"], assigning the valid type ["nfs"] leaves the ["hostPath"]
    slot populated next to the ["nfs"] one. *)
Lemma set_type_twice_keeps_both_slots :
  ~ type_set_leaves_one_slot volume_types pv_hostPath "nfs".
Proof.
  intros H. destruct (H nfs_valid) as (v & self' & Hv & Hrun & _ & Hslots).
  rewrite set_type_nfs_after_hostPath in Hrun. injection Hrun as <-.
  simpl in Hslots.
  assert (Hl := f_equal (fun m : gmap string Source => m !! "hostPath") Hslots).
  simpl in Hl. rewrite lookup_singleton_ne in Hl by done.
  vm_compute in Hl. discriminate.
Qed.

(** With a reading every 30 seconds the second poll is taken exactly 60
    seconds after the start, and that is where the loop gives up. *)
Lemma wait_for_available_times_out_witness :
  Pending (model pv_hostPath) /\
  (steady_clock 30 1 - steady_clock 30 0 < READY_WAIT_TIMEOUT_SECONDS)%Q /\
  (steady_clock 30 2 - steady_clock 30 0 == READY_WAIT_TIMEOUT_SECONDS)%Q /\
  _wait_for_available (fun d => d) pending_forever (steady_clock 30) 3
    (pv_hostPath, world0)
  = (Raise (TimedOutException
              "Timed out waiting on readiness of PersistentVolume: [ pv0 ]"),
     (set_model (pv_doc "pv0" "Pending") pv_hostPath,
      {| calls := 2; ticks := 3 |})).
Proof.
  split; [discriminate|]. split; [reflexivity|]. split; [reflexivity|].
  refine (proj1 (wait_for_available_times_out (fun d => d) pending_forever
                   (steady_clock 30) pv_hostPath world0
                   (fun _ => pv_doc "pv0" "Pending") _ _ _) 1%nat 3%nat _ _ _).
  - discriminate.
  - reflexivity.
  - discriminate.
  - intros i Hi. assert (i = 0)%nat as -> by lia. reflexivity.
  - apply Qle_bool_iff. reflexivity.
  - lia.
Defined.

(** Two pending answers, then an available one, ten seconds apart: three
    polls. *)
Lemma wait_for_available_returns_witness :
  _wait_for_available (fun d => d) (available_from 2) (steady_clock 10) 4
    (pv_hostPath, world0)
  = (Ok tt,
     (set_model (pv_doc "pv0" "Available") pv_hostPath,
      {| calls := 3; ticks := 4 |})).
Proof.
  refine (wait_for_available_returns (fun d => d) (available_from 2)
            (steady_clock 10) pv_hostPath world0
            (fun i => pv_doc "pv0" (if (i <? 2)%nat then "Pending"
                                    else "Available"))
            2 4 _ _ _ _ _ _).
  - discriminate.
  - reflexivity.
  - intros [|[|i]] Hi; [reflexivity|reflexivity|lia].
  - reflexivity.
  - intros [|[|[|i]]] Hi; [reflexivity|reflexivity|reflexivity|lia].
  - lia.
Defined.

(** Assigning ["nfs"] after ["hostPath"]: the new slot is filled, the old
    one stays. *)
Lemma set_type_valid_populates_slot_witness :
  "nfs" ∈ VALID_VOLUME_TYPES volume_types /\
  exists self',
    set_type volume_types (PyStr "nfs") pv_hostPath = (Ok tt, self') /\
    type self' = PyStr "nfs" /\
    slots (spec (model self')) !! "nfs"
    = Some {[ "server" := PyNone; "path" := PyNone ]} /\
    slots (spec (model self')) !! "hostPath"
    = slots (spec (model pv_hostPath)) !! "hostPath".
Proof.
  assert (Hnfs : "nfs" ∈ VALID_VOLUME_TYPES volume_types).
  { apply (bool_decide_unpack _). vm_compute. exact I. }
  split; [exact Hnfs|].
  destruct (set_type_valid_populates_slot volume_types pv_hostPath "nfs" Hnfs)
    as (v & self' & Hv & _ & Hrun & Hty & _ & Hslot & Hother & _).
  exists self'. split; [exact Hrun|]. split; [exact Hty|]. split.
  - rewrite Hslot, <- Hv. vm_compute. reflexivity.
  - apply Hother. discriminate.
Defined.

(** An unknown type and an ephemeral one are both refused. *)
Lemma set_type_invalid_unchanged_witness :
  list_contains (VALID_VOLUME_TYPES volume_types) (PyStr "floppy") = false /\
  set_type volume_types (PyStr "floppy") pv_hostPath
  = (Raise (SyntaxError "K8sPersistentVolume: type: [ floppy ] is invalid."),
     pv_hostPath) /\
  set_type volume_types (PyStr "secret") pv_hostPath
  = (Raise (SyntaxError "K8sPersistentVolume: type: [ secret ] is invalid."),
     pv_hostPath).
Proof.
  split; [vm_compute; reflexivity|]. split.
  - apply (proj1 (set_type_invalid_unchanged volume_types pv_hostPath)
             (PyStr "floppy")).
    vm_compute. reflexivity.
  - apply (proj2 (set_type_invalid_unchanged volume_types pv_hostPath) "secret").
    apply (bool_decide_unpack _). vm_compute. exact I.
Defined.


(** The constructor with type ["hostPath"]. *)
Lemma new_needs_valid_type_witness :
  new volume_types tt (PyStr "pv0") (PyStr "hostPath") = Ok pv_hostPath /\
  exists s, PyStr "hostPath" = PyStr s /\
            s ∈ VALID_VOLUME_TYPES volume_types /\
            type pv_hostPath = PyStr s.
Proof.
  assert (Hnew : new volume_types tt (PyStr "pv0") (PyStr "hostPath")
                 = Ok pv_hostPath) by (vm_compute; reflexivity).
  split; [exact Hnew|].
  exact (proj2 (proj2 (new_needs_valid_type volume_types tt (PyStr "pv0")))
           (PyStr "hostPath") pv_hostPath Hnew).
Defined.

(** Renaming the sample volume. *)
Lemma set_name_writes_name_and_label_witness :
  exists self',
    set_name (PyStr "pv1") pv_hostPath = (Ok tt, self') /\
    name self' = PyStr "pv1" /\
    labels (metadata (model self')) !! "name" = Some (PyStr "pv1") /\
    labels (metadata (model self')) !! "tier"
    = labels (metadata (model pv_hostPath)) !! "tier" /\
    spec (model self') = spec (model pv_hostPath).
Proof.
  destruct (set_name_writes_name_and_label pv_hostPath (PyStr "pv1"))
    as (self' & Hrun & Hname & _ & Hlabel & Hothers & _ & Hspec & _).
  exists self'. repeat split; try assumption.
  apply Hothers. discriminate.
Defined.

End Runs.

Section NamespaceRuns.
Import K8sNamespace Sample.

(** Present and absent keys on the namespace ["dev"]. *)
Lemma get_label_get_annotation_lookup_witness :
  get_label (PyStr "phase") dev = Ok (PyStr "Active") /\
  get_label (PyStr "tier") dev = Ok PyNone /\
  get_annotation (PyStr "owner") dev = Ok (PyStr "ops") /\
  get_annotation PyNone dev = Ok PyNone.
Proof.
  split; [|split; [|split]].
  - apply (proj1 (get_label_get_annotation_lookup dev (PyStr "phase"))).
    vm_compute. reflexivity.
  - apply (proj1 (proj2 (get_label_get_annotation_lookup dev (PyStr "tier")))).
    vm_compute. reflexivity.
  - apply (proj1 (proj2 (proj2
             (get_label_get_annotation_lookup dev (PyStr "owner"))))).
    vm_compute. reflexivity.
  - apply (proj1 (proj2 (proj2 (proj2
             (get_label_get_annotation_lookup dev PyNone))))).
    reflexivity.
Defined.

(** Two namespaces of the listing are called ["dev"]; the first is
    returned. *)
Lemma get_by_name_first_match_witness :
  get_by_name (fun d => d) ns_server tt (PyStr "dev") world0
  = (Ok (Some dev), {| calls := 1; ticks := 0 |}).
Proof.
  refine (proj1 (proj2 (get_by_name_first_match (fun d => d) ns_server tt
                          (PyStr "dev") world0 _ eq_refl))
            [ns_doc "kube-system" "Active"] (ns_doc "dev" "Active")
            [ns_doc "dev" "Terminating"] eq_refl _ eq_refl).
  constructor; [discriminate|constructor].
Defined.

(** [create()] on a fresh controller ends with the server's document as the
    model. *)
Lemma create_update_refetch_witness :
  create (fun d => d) ns_server (__init__ tt (PyStr "dev"), world0)
  = (Ok dev, (dev, {| calls := 2; ticks := 0 |})).
Proof.
  exact (proj1 (create_update_refetch (fun d => d) ns_server
                  (__init__ tt (PyStr "dev")) world0
                  (ns_doc "dev" "Active") (ns_doc "dev" "Active") eq_refl)
           eq_refl).
Defined.

End NamespaceRuns.

(** * Further properties *)

(** ** The polling loop at its edges *)

Section PollingEdges.
Import K8sPersistentVolume.
Context {Config Doc : Type}.
Variable PersistentVolume_of : Doc -> PersistentVolume.
Variable tr : Transport Doc.
Variable clock : nat -> Q.

Local Abbreviation wait_loop := (wait_loop PersistentVolume_of tr clock).
Local Abbreviation polled := (polled PersistentVolume_of).
Local Abbreviation _wait_for_available :=
  (_wait_for_available PersistentVolume_of tr clock).
Local Abbreviation create := (create PersistentVolume_of tr clock).
Local Abbreviation timed_out d :=
  (TimedOutException
     ("Timed out waiting on readiness of PersistentVolume: [ "
        ++ py_format (meta_name (metadata (PersistentVolume_of d))) ++ " ]")).

(** One turn of the loop, in every case. *)
Lemma wait_loop_unfold fuel start (self : K8sPersistentVolume Config) c t :
  wait_loop (S fuel) start (self, {| calls := c; ticks := t |})
  = if py_eq (phase (status (model self))) (PyStr "Available")
    then (Ok tt, (self, {| calls := c; ticks := t |}))
    else match t_get tr c with
         | Ok d =>
             if Qle_bool READY_WAIT_TIMEOUT_SECONDS (clock t - start)
             then (Raise (timed_out d),
                   (set_model (PersistentVolume_of d) self,
                    {| calls := S c; ticks := S t |}))
             else wait_loop fuel start
                    (set_model (PersistentVolume_of d) self,
                     {| calls := S c; ticks := S t |})
         | Raise e => (Raise e, (self, {| calls := S c; ticks := t |}))
         | OutOfFuel => (OutOfFuel, (self, {| calls := S c; ticks := t |}))
         end.
Proof.
  cbn [K8sPersistentVolume.wait_loop].
  unfold bind at 1. unfold gets at 1. cbn [fst].
  destruct (py_eq (phase (status (model self))) (PyStr "Available"));
    cbn [negb]; [reflexivity|].
  unfold bind at 1. unfold get, get_model, bind at 1, transport_call.
  cbn [calls]. destruct (t_get tr c) as [d|e|]; try reflexivity.
  unfold bind at 1, modify, gets, time_time. cbn.
  destruct (Qle_bool READY_WAIT_TIMEOUT_SECONDS (clock t - start)); reflexivity.
Qed.

Lemma wait_for_available_start fuel (self : K8sPersistentVolume Config) w :
  _wait_for_available fuel (self, w)
  = wait_loop fuel (clock (ticks w))
      (self, {| calls := calls w; ticks := S (ticks w) |}).
Proof. now destruct w. Qed.

Lemma py_eq_true (x y : pyval) : x = y -> py_eq x y = true.
Proof. intros H. now apply bool_decide_eq_true_2. Qed.

Lemma py_eq_no (x y : pyval) : x ≠ y -> py_eq x y = false.
Proof. intros H. now apply bool_decide_eq_false_2. Qed.

Lemma Qle_bool_no (x y : Q) : (y < x)%Q -> Qle_bool x y = false.
Proof.
  intros Hlt. destruct (Qle_bool x y) eqn:E; [|done].
  apply Qle_bool_iff in E. now apply Qlt_not_le in Hlt.
Qed.

(** [n] polls that find the volume pending within the budget, the answers
    needed being those of the first [n] calls only. *)
Lemma wait_loop_pending_polls n fuel start (self : K8sPersistentVolume Config)
    c t docs :
  Pending (model self) ->
  (forall i, (i < n)%nat -> t_get tr (c + i) = Ok (docs i)) ->
  (forall i, (i < n)%nat -> Pending (PersistentVolume_of (docs i))) ->
  (forall i, (i < n)%nat ->
     (clock (t + i) - start < READY_WAIT_TIMEOUT_SECONDS)%Q) ->
  wait_loop (n + fuel) start (self, {| calls := c; ticks := t |})
  = wait_loop fuel start
      (polled self docs n, {| calls := c + n; ticks := t + n |})
  /\ Pending (model (polled self docs n)).
Proof.
  intros Hentry. revert fuel.
  induction n as [|n IH]; intros fuel Hget Hpend Hclock.
  - simpl. now rewrite !Nat.add_0_r.
  - replace (S n + fuel)%nat with (n + S fuel)%nat by lia.
    destruct (IH (S fuel)) as [-> Hn]; [auto with lia..|].
    split; [|simpl; apply Hpend; lia].
    rewrite wait_loop_unfold.
    unfold Pending in Hn. rewrite (py_eq_no _ _ Hn).
    rewrite Hget by lia. rewrite Qle_bool_no by (apply Hclock; lia).
    destruct n; simpl; do 3 f_equal; lia.
Qed.

(** X1. A controller whose local phase already reads ["Available"] is not
    polled at all: the loop reads the clock once and returns, without a call
    to the transport. *)
Theorem wait_for_available_no_poll (self : K8sPersistentVolume Config)
    (w : World) (fuel : nat) :
  Available (model self) -> (0 < fuel)%nat ->
  _wait_for_available fuel (self, w) = (Ok tt, (self, next_tick w)).
Proof.
  intros Hav Hfuel. destruct fuel as [|fuel]; [lia|].
  rewrite wait_for_available_start, wait_loop_unfold.
  now rewrite (py_eq_true _ _ Hav).
Qed.

(** X2. The budget is tested before the phase: the poll after which 60
    seconds or more have elapsed ends in [TimedOutException] whatever phase
    it fetched, ["Available"] included, and the fetched document is then the
    model. *)
Theorem wait_for_available_budget_first (self : K8sPersistentVolume Config)
    (w : World) (docs : nat -> Doc) (k fuel : nat) :
  Pending (model self) ->
  (forall i, (i <= k)%nat -> t_get tr (calls w + i) = Ok (docs i)) ->
  (forall i, (i < k)%nat -> Pending (PersistentVolume_of (docs i))) ->
  (forall i, (i < k)%nat ->
     (clock (ticks w + S i) - clock (ticks w) < READY_WAIT_TIMEOUT_SECONDS)%Q) ->
  (READY_WAIT_TIMEOUT_SECONDS <= clock (ticks w + S k) - clock (ticks w))%Q ->
  (k < fuel)%nat ->
  _wait_for_available fuel (self, w)
  = (Raise (timed_out (docs k)),
     (set_model (PersistentVolume_of (docs k)) self,
      {| calls := calls w + S k; ticks := ticks w + S (S k) |})).
Proof.
  intros Hentry Hget Hpend Hbelow Hreach Hfuel.
  rewrite wait_for_available_start.
  replace fuel with (k + S (fuel - S k))%nat by lia.
  destruct (wait_loop_pending_polls k (S (fuel - S k)) (clock (ticks w)) self
              (calls w) (S (ticks w)) docs) as [-> Hk]; auto with lia.
  { intros i Hi. replace (S (ticks w) + i)%nat with (ticks w + S i)%nat by lia.
    now apply Hbelow. }
  rewrite wait_loop_unfold. unfold Pending in Hk.
  rewrite (py_eq_no _ _ Hk), Hget by lia.
  replace (S (ticks w) + k)%nat with (ticks w + S k)%nat by lia.
  apply Qle_bool_iff in Hreach. rewrite Hreach.
  destruct k; simpl; do 3 f_equal; lia.
Qed.

(** X3. An error of the transport during a poll leaves the loop as it is:
    the exception is the transport's, the model is the one fetched by the
    poll before, and the clock is not read again. *)
Theorem wait_for_available_transport_error (self : K8sPersistentVolume Config)
    (w : World) (docs : nat -> Doc) (k fuel : nat) (e : exn) :
  Pending (model self) ->
  (forall i, (i < k)%nat -> t_get tr (calls w + i) = Ok (docs i)) ->
  (forall i, (i < k)%nat -> Pending (PersistentVolume_of (docs i))) ->
  (forall i, (i < k)%nat ->
     (clock (ticks w + S i) - clock (ticks w) < READY_WAIT_TIMEOUT_SECONDS)%Q) ->
  t_get tr (calls w + k) = Raise e ->
  (k < fuel)%nat ->
  _wait_for_available fuel (self, w)
  = (Raise e,
     (polled self docs k,
      {| calls := calls w + S k; ticks := ticks w + S k |})).
Proof.
  intros Hentry Hget Hpend Hbelow Herr Hfuel.
  rewrite wait_for_available_start.
  replace fuel with (k + S (fuel - S k))%nat by lia.
  destruct (wait_loop_pending_polls k (S (fuel - S k)) (clock (ticks w)) self
              (calls w) (S (ticks w)) docs) as [-> Hk]; auto with lia.
  { intros i Hi. replace (S (ticks w) + i)%nat with (ticks w + S i)%nat by lia.
    now apply Hbelow. }
  rewrite wait_loop_unfold. unfold Pending in Hk.
  rewrite (py_eq_no _ _ Hk), Herr.
  do 3 f_equal; lia.
Qed.

(** Whatever the transport and the clock do, the loop returns only in the
    [Available] state, and touches nothing of the controller but the
    model. *)
Lemma wait_loop_ok fuel start (self self' : K8sPersistentVolume Config) w w' :
  wait_loop fuel start (self, w) = (Ok tt, (self', w')) ->
  Available (model self') /\ config self' = config self /\
  obj_type self' = obj_type self /\ _type self' = _type self /\
  (calls w <= calls w')%nat.
Proof.
  revert self w. induction fuel as [|fuel IH]; intros self [c t]; [discriminate|].
  rewrite wait_loop_unfold.
  destruct (py_eq _ _) eqn:Hph.
  - intros [= <- <-]. apply bool_decide_eq_true in Hph. simpl. auto.
  - destruct (t_get tr c) as [d|e|]; try discriminate.
    destruct (Qle_bool _ _); [discriminate|].
    intros H. apply IH in H. simpl in H. simpl.
    destruct H as (? & ? & ? & ? & ?). repeat split; auto with lia.
Qed.

(** X4. Whenever [create()] returns, for any transport and any clock, the
    local model is in the [Available] state, the value returned is the
    controller, the submission was accepted, and configuration, object type
    and active volume type are those of before. *)
Theorem create_returns_available (fuel : nat)
    (self self' r : K8sPersistentVolume Config) (w w' : World) :
  create fuel (self, w) = (Ok r, (self', w')) ->
  r = self' /\ Available (model self') /\
  (exists d0, t_create tr (calls w) = Ok d0) /\
  config self' = config self /\ obj_type self' = obj_type self /\
  _type self' = _type self /\ (calls w < calls w')%nat.
Proof.
  unfold K8sPersistentVolume.create, K8sObject_create, bind at 1, bind at 1.
  unfold transport_call at 1.
  destruct (t_create tr (calls w)) as [d0|e|] eqn:Hpost; try discriminate.
  unfold ret at 1, bind at 1.
  rewrite wait_for_available_start.
  destruct (wait_loop fuel _ _) as [[[]|e|] [self1 w1]] eqn:Hloop;
    try discriminate.
  unfold gets. cbn [fst]. intros [= <- <- <-].
  apply wait_loop_ok in Hloop. simpl in Hloop.
  destruct Hloop as (? & ? & ? & ? & ?). repeat split; eauto with lia.
Qed.

(** X5. A submission the server refuses ends [create()] at once: the
    transport's exception is raised after that one call, the clock is not
    read, no poll is made and the controller is unchanged. *)
Theorem create_refused (fuel : nat) (self : K8sPersistentVolume Config)
    (w : World) (e : exn) :
  t_create tr (calls w) = Raise e ->
  create fuel (self, w) = (Raise e, (self, next_call w)).
Proof.
  intros Hpost.
  unfold K8sPersistentVolume.create, K8sObject_create, bind, transport_call.
  now rewrite Hpost.
Qed.

End PollingEdges.

(** ** K8sNamespace: failures and listings *)

Section NamespaceEdges.
Import K8sNamespace.
Context {Config Doc : Type}.
Variable Namespace_of : Doc -> Namespace.
Variable tr : Transport Doc.

Local Abbreviation create := (create Namespace_of tr).
Local Abbreviation update := (update Namespace_of tr).
Local Abbreviation get := (get Namespace_of tr).
Local Abbreviation list := (list Namespace_of tr).
Local Abbreviation get_by_name := (get_by_name Namespace_of tr).

(** X6. [create()] and [update()] stop at the first failure of the
    transport.  A refused submission is not followed by a [get()]; a
    submission that was accepted but whose [get()] fails raises that
    failure after two calls.  In both cases the local model is the one of
    before. *)
Theorem create_update_failures (self : K8sNamespace Config) (w : World)
    (e : exn) :
  (t_create tr (calls w) = Raise e ->
   create (self, w) = (Raise e, (self, next_call w))) /\
  (t_update tr (calls w) = Raise e ->
   update (self, w) = (Raise e, (self, next_call w))) /\
  (forall d0, t_create tr (calls w) = Ok d0 ->
     t_get tr (S (calls w)) = Raise e ->
     create (self, w) = (Raise e, (self, next_call (next_call w)))) /\
  (forall d0, t_update tr (calls w) = Ok d0 ->
     t_get tr (S (calls w)) = Raise e ->
     update (self, w) = (Raise e, (self, next_call (next_call w)))).
Proof.
  repeat split.
  - intros H. unfold K8sNamespace.create, K8sObject_create, bind, transport_call.
    now rewrite H.
  - intros H. unfold K8sNamespace.update, K8sObject_update, bind, transport_call.
    now rewrite H.
  - intros d0 H Hget.
    unfold K8sNamespace.create, K8sNamespace.get, K8sObject_create, get_model,
      bind, transport_call, ret.
    rewrite H. simpl. now rewrite Hget.
  - intros d0 H Hget.
    unfold K8sNamespace.update, K8sNamespace.get, K8sObject_update, get_model,
      bind, transport_call, ret.
    rewrite H. simpl. now rewrite Hget.
Qed.

(** X7. [list()] returns one controller per document of the listing, in
    the order of the listing: the [i]-th controller has the caller's
    configuration and the parse of the [i]-th document as its model.  The
    caller itself is unchanged, and a failure of the transport is raised as
    it is. *)
Theorem list_one_controller_per_document (self : K8sNamespace Config)
    (w : World) :
  (forall docs : Datatypes.list Doc,
     t_list tr (calls w) = Ok docs ->
     exists ctls,
       list (self, w) = (Ok ctls, (self, next_call w)) /\
       length ctls = length docs /\
       forall (i : nat) d,
         docs !! i = Some d ->
         ctls !! i = Some {| config := config self; obj_type := "Namespace";
                             model := Namespace_of d |}) /\
  (forall e, t_list tr (calls w) = Raise e ->
     list (self, w) = (Raise e, (self, next_call w))).
Proof.
  split.
  - intros docs H. eexists. rewrite list_run, H. split; [reflexivity|].
    split; [apply length_map|].
    intros i d Hd. now rewrite list_lookup_fmap, Hd.
  - intros e H. now rewrite list_run, H.
Qed.

Lemma head_filter_Some {A} (f : A -> bool) (l : Datatypes.list A) x :
  head (List.filter f l) = Some x -> f x = true /\ In x l.
Proof.
  induction l as [|y l IH]; simpl; [discriminate|].
  destruct (f y) eqn:Hy; simpl.
  - intros [= ->]. auto.
  - intros H. apply IH in H. tauto.
Qed.

Lemma head_filter_None {A} (f : A -> bool) (l : Datatypes.list A) :
  head (List.filter f l) = None -> Forall (fun y => f y = false) l.
Proof.
  induction l as [|y l IH]; simpl; [constructor|].
  destruct (f y) eqn:Hy; simpl; [discriminate|].
  intros H. constructor; auto.
Qed.

Lemma get_by_name_run (cfg : Config) (nm : pyval) (w : World) :
  get_by_name cfg nm w
  = match t_list tr (calls w) with
    | Ok docs =>
        (Ok (head (List.filter (fun x => py_eq (name x) nm)
                     (map (fun d => {| config := cfg; obj_type := "Namespace";
                                       model := Namespace_of d |}) docs))),
         next_call w)
    | Raise e => (Raise e, next_call w)
    | OutOfFuel => (OutOfFuel, next_call w)
    end.
Proof.
  unfold K8sNamespace.get_by_name, bind, on_object. rewrite list_run.
  destruct (t_list tr (calls w)) as [docs|e|]; try reflexivity.
  simpl. now destruct (List.filter _ _).
Qed.

(** X8. What [get_by_name] answers is sound.  A controller it returns
    bears the requested name, the given configuration, and the parse of a
    document of the listing as its model; [None] is returned only when no
    document of the listing has the name; and a failure of the listing is
    raised as it is. *)
Theorem get_by_name_sound (cfg : Config) (nm : pyval) (w w' : World) :
  (forall x, get_by_name cfg nm w = (Ok (Some x), w') ->
     name x = nm /\ config x = cfg /\
     exists docs d, t_list tr (calls w) = Ok docs /\ In d docs /\
                    model x = Namespace_of d) /\
  (get_by_name cfg nm w = (Ok None, w') ->
   exists docs, t_list tr (calls w) = Ok docs /\
     Forall (fun d => meta_name (metadata (Namespace_of d)) ≠ nm) docs) /\
  (forall e, t_list tr (calls w) = Raise e ->
     get_by_name cfg nm w = (Raise e, next_call w)).
Proof.
  rewrite get_by_name_run. split; [|split].
  - intros x. destruct (t_list tr (calls w)) as [docs|e|]; try discriminate.
    intros [= H _]. apply head_filter_Some in H as [Hname Hin].
    apply in_map_iff in Hin as (d & <- & Hd).
    apply bool_decide_eq_true in Hname. simpl in *. eauto 8.
  - destruct (t_list tr (calls w)) as [docs|e|]; try discriminate.
    intros [= H _]. exists docs. split; [done|].
    apply head_filter_None in H. rewrite Forall_map in H.
    eapply Forall_impl; [exact H|]. intros d Hd. simpl in Hd.
    now apply bool_decide_eq_false in Hd.
  - now intros e ->.
Qed.

End NamespaceEdges.

(** ** K8sPersistentVolume: the object between two calls to the server *)

Section VolumeObject.
Import K8sPersistentVolume.
Context {Config Doc : Type}.
Variable table : gmap string Source.
Variable PersistentVolume_of : Doc -> PersistentVolume.
Variable tr : Transport Doc.

Local Abbreviation VALID := (VALID_VOLUME_TYPES table).
Local Abbreviation get := (get PersistentVolume_of tr).

Lemma getter_run (self : K8sPersistentVolume Config) (a : accessor) (t : string) :
  _type self = PyStr t ->
  getter a self
  = match slots (spec (model self)) !! t with
    | Some src => match src !! field_of a with
                  | Some v => (Ok v, self)
                  | None => (Raise NotImplementedError, self)
                  end
    | None => (Raise NotImplementedError, self)
    end.
Proof. intros H. destruct a; exact (guarded_get self t _ H). Qed.

Lemma setter_run (self : K8sPersistentVolume Config) (a : accessor) (t : string)
    (p : pyval) :
  _type self = PyStr t ->
  setter a p self
  = match slots (spec (model self)) !! t with
    | Some src =>
        match src !! field_of a with
        | Some _ =>
            (Ok tt,
             set_model
               (set_spec
                  (set_slots
                     (<[t := <[field_of a := p]> src]> (slots (spec (model self))))
                     (spec (model self)))
                  (model self)) self)
        | None => (Raise NotImplementedError, self)
        end
    | None => (Raise NotImplementedError, self)
    end.
Proof. intros H. destruct a; exact (guarded_set self t _ p H). Qed.

(** X9. A value written through a source-specific setter is read back by
    every getter that stands for the same attribute ([host_path] and
    [nfs_path] both stand for [path]); the getters of the other attributes
    answer as before, and the active type, the metadata, the status and the
    other slots are untouched. *)
Theorem setter_then_getter (self : K8sPersistentVolume Config)
    (a : accessor) (t : string) (p : pyval) (src : Source) :
  _type self = PyStr t ->
  slots (spec (model self)) !! t = Some src ->
  is_Some (src !! field_of a) ->
  exists self',
    setter a p self = (Ok tt, self') /\
    (forall b, field_of b = field_of a -> getter b self' = (Ok p, self')) /\
    (forall b, field_of b ≠ field_of a ->
       fst (getter b self') = fst (getter b self)) /\
    _type self' = _type self /\
    metadata (model self') = metadata (model self) /\
    status (model self') = status (model self) /\
    (forall t', t' ≠ t ->
       slots (spec (model self')) !! t' = slots (spec (model self)) !! t').
Proof.
  intros Hty Hsrc [v0 Hv0].
  eexists. split.
  { rewrite (setter_run self a t p Hty), Hsrc, Hv0. reflexivity. }
  split; [|split; [|repeat split]].
  - intros b Hb. rewrite (getter_run _ b t) by exact Hty. simpl.
    now rewrite lookup_insert_eq, Hb, lookup_insert_eq.
  - intros b Hb. rewrite (getter_run _ b t), (getter_run self b t) by exact Hty.
    simpl. rewrite lookup_insert_eq, Hsrc, lookup_insert_ne by done.
    now destruct (src !! field_of b).
  - intros t' Hne. simpl. now rewrite lookup_insert_ne.
Qed.

(** X10. After a valid type [s] was assigned, which source-specific
    getters work is decided by the table alone: a getter returns the value
    the default source of [s] has for its attribute, and raises
    [NotImplementedError] when that source has no such attribute; values
    written before the assignment are gone. *)
Theorem getter_after_set_type (self : K8sPersistentVolume Config)
    (s : string) (a : accessor) :
  s ∈ VALID ->
  exists v self',
    table !! s = Some v /\
    set_type table (PyStr s) self = (Ok tt, self') /\
    getter a self'
    = match v !! field_of a with
      | Some x => (Ok x, self')
      | None => (Raise NotImplementedError, self')
      end.
Proof.
  intros Hs. destruct (set_type_accept table self s Hs) as (v & Hv & Hrun).
  eexists v, _. split; [exact Hv|]. split; [exact Hrun|].
  rewrite (getter_run _ a s) by reflexivity. simpl.
  now rewrite lookup_insert_eq.
Qed.

Lemma new_valid (cfg : Config) (nm : pyval) (s : string) :
  s ∈ VALID ->
  exists v, table !! s = Some v /\
            new table cfg nm (PyStr s) = Ok (constructed cfg nm s v).
Proof.
  intros Hs. unfold new. rewrite init_run.
  match goal with
  | |- context [set_type table (PyStr s) ?self0] =>
      destruct (set_type_accept table self0 s Hs) as (v & Hv & ->)
  end.
  exists v. split; [exact Hv|]. unfold constructed. simpl.
  now rewrite insert_empty.
Qed.

Lemma new_invalid (cfg : Config) (nm t : pyval) :
  list_contains VALID t = false ->
  new table cfg nm t
  = Raise (SyntaxError
             ("K8sPersistentVolume: type: [ " ++ py_format t ++ " ] is invalid.")).
Proof.
  intros Hno. unfold new. rewrite init_run. now rewrite set_type_reject.
Qed.

(** X11. The constructor, in full: with a valid type it builds the
    controller whose model has the given name, the label ["name"] set to
    it, no annotation, no status and the default source of the type as its
    only slot; with any other type it raises the [SyntaxError] of the
    setter, whatever the name. *)
Theorem new_builds (cfg : Config) (nm t : pyval) :
  (forall s, t = PyStr s -> s ∈ VALID_VOLUME_TYPES table ->
     exists v, table !! s = Some v /\
               new table cfg nm t = Ok (constructed cfg nm s v)) /\
  (list_contains (VALID_VOLUME_TYPES table) t = false ->
   new table cfg nm t
   = Raise (SyntaxError
              ("K8sPersistentVolume: type: [ " ++ py_format t ++ " ] is invalid."))).
Proof.
  split.
  - intros s -> Hs. now apply new_valid.
  - apply new_invalid.
Qed.

(** The pieces of the controller that the [name] label depends on. *)
Lemma synced_by_metadata (self self' : K8sPersistentVolume Config) :
  metadata (model self') = metadata (model self) ->
  name_label_synced self -> name_label_synced self'.
Proof. unfold name_label_synced, name. now intros ->. Qed.

(** X12. The label ["name"] mirrors [metadata.name] on every controller
    the constructor builds and after every assignment to [name]; the [type]
    setter (accepted or refused), the source-specific setters and the
    [access_modes] and [capacity] setters keep it so. *)
Theorem name_label_stays_synced (self : K8sPersistentVolume Config) :
  (forall (cfg : Config) nm t self0, new table cfg nm t = Ok self0 ->
     name_label_synced self0) /\
  (forall n, name_label_synced (snd (set_name n self))) /\
  (name_label_synced self ->
   (forall t, name_label_synced (snd (set_type table t self))) /\
   (forall a p, name_label_synced (snd (setter a p self))) /\
   (forall modes, name_label_synced (snd (set_access_modes modes self))) /\
   (forall cap, name_label_synced (snd (set_capacity cap self)))).
Proof.
  split; [|split].
  - intros cfg nm t self0 Hnew.
    destruct (list_contains VALID t) eqn:Hin.
    + destruct t as [|s]; [discriminate|]. simpl in Hin.
      apply bool_decide_eq_true in Hin.
      destruct (new_valid cfg nm s Hin) as (v & _ & Hv).
      rewrite Hv in Hnew. injection Hnew as <-.
      unfold name_label_synced. simpl. apply lookup_insert_eq.
    + rewrite (new_invalid cfg nm t Hin) in Hnew. discriminate.
  - intros n. unfold name_label_synced. simpl. apply lookup_insert_eq.
  - intros Hsync. repeat split.
    + intros t. destruct (list_contains VALID t) eqn:Hin.
      * destruct t as [|s]; [discriminate|]. simpl in Hin.
        apply bool_decide_eq_true in Hin.
        destruct (set_type_accept table self s Hin) as (v & _ & ->).
        now apply (synced_by_metadata self).
      * now rewrite set_type_reject.
    + intros a p. destruct (_type self) as [|t] eqn:Hty.
      * assert (Hrun : setter a p self = (Raise TypeError, self)).
        { destruct a;
            cbv [setter set_host_path set_volume_id set_pd_name set_fs_type
                 set_nfs_server set_nfs_path bind source];
            now rewrite Hty. }
        now rewrite Hrun.
      * rewrite (setter_run self a t p Hty).
        destruct (slots (spec (model self)) !! t) as [src|]; [|done].
        destruct (src !! field_of a); [|done].
        now apply (synced_by_metadata self).
    + intros modes. now apply (synced_by_metadata self).
    + intros cap. now apply (synced_by_metadata self).
Qed.

(** X13. The valid volume types are exactly the keys of the table other
    than ["emptyDir"], ["gitRepo"] and ["secret"], each listed once. *)
Theorem VALID_VOLUME_TYPES_keys :
  NoDup (VALID_VOLUME_TYPES table) /\
  (forall s, s ∈ VALID_VOLUME_TYPES table <->
             is_Some (table !! s) /\ s ≠ "emptyDir" /\ s ≠ "gitRepo" /\
             s ≠ "secret").
Proof.
  split.
  - unfold VALID_VOLUME_TYPES. apply NoDup_ListNoDup, List.NoDup_filter.
    apply NoDup_ListNoDup, NoDup_fst_map_to_list.
  - intros s. rewrite elem_of_VALID, !not_elem_of_cons. split.
    + intros (H & H1 & H2 & H3 & _). auto.
    + intros (H & H1 & H2 & H3). repeat split; auto. apply not_elem_of_nil.
Qed.

(** X14. [get()] replaces the model by the parse of the fetched document
    and keeps the active type; the source-specific accessors then look for
    the source in the fetched document, and all raise
    [NotImplementedError] when it has no slot for the active type.  When
    the transport fails, its exception is raised and the model is kept. *)
Theorem get_replaces_model (self : K8sPersistentVolume Config) (w : World) :
  (forall d, t_get tr (calls w) = Ok d ->
     let self' := set_model (PersistentVolume_of d) self in
     get (self, w) = (Ok self', (self', next_call w)) /\
     model self' = PersistentVolume_of d /\ _type self' = _type self /\
     forall t a p, _type self = PyStr t ->
       slots (spec (PersistentVolume_of d)) !! t = None ->
       getter a self' = (Raise NotImplementedError, self') /\
       setter a p self' = (Raise NotImplementedError, self')) /\
  (forall e, t_get tr (calls w) = Raise e ->
     get (self, w) = (Raise e, (self, next_call w))).
Proof.
  split.
  - intros d Hd self'. split; [|split; [reflexivity|split; [reflexivity|]]].
    + unfold K8sPersistentVolume.get, get_model, bind, transport_call.
      now rewrite Hd.
    + intros t a p Hty Hnone.
      rewrite (getter_run self' a t Hty), (setter_run self' a t p Hty).
      simpl. now rewrite Hnone.
  - intros e He.
    unfold K8sPersistentVolume.get, get_model, bind, transport_call.
    now rewrite He.
Qed.

End VolumeObject.

(** ** Concrete runs of the further properties *)

Section MoreRuns.
Import K8sPersistentVolume Sample Faulty.

(** A volume already available is not polled. *)
Lemma wait_for_available_no_poll_witness :
  Available (model pv_data) /\
  _wait_for_available (fun d => d) pending_forever (steady_clock 30) 1
    (pv_data, world0)
  = (Ok tt, (pv_data, {| calls := 0; ticks := 1 |})).
Proof.
  split; [reflexivity|].
  apply (wait_for_available_no_poll (fun d => d) pending_forever
           (steady_clock 30) pv_data world0 1); [reflexivity|lia].
Defined.

(** The second poll fetches ["Available"] 80 seconds after the start: the
    loop times out with an available model. *)
Lemma wait_for_available_budget_first_witness :
  Available (pv_doc "pv0" "Available") /\
  _wait_for_available (fun d => d) (available_from 1) (steady_clock 40) 2
    (pv_hostPath, world0)
  = (Raise (TimedOutException
              "Timed out waiting on readiness of PersistentVolume: [ pv0 ]"),
     (set_model (pv_doc "pv0" "Available") pv_hostPath,
      {| calls := 2; ticks := 3 |})).
Proof.
  split; [reflexivity|].
  refine (wait_for_available_budget_first (fun d => d) (available_from 1)
            (steady_clock 40) pv_hostPath world0
            (fun i => pv_doc "pv0" (if (i <? 1)%nat then "Pending"
                                    else "Available"))
            1 2 _ _ _ _ _ _).
  - discriminate.
  - reflexivity.
  - intros i Hi. assert (i = 0)%nat as -> by lia. discriminate.
  - intros i Hi. assert (i = 0)%nat as -> by lia. reflexivity.
  - apply Qle_bool_iff. reflexivity.
  - lia.
Defined.

(** The volume disappears after one poll. *)
Lemma wait_for_available_transport_error_witness :
  _wait_for_available (fun d => d) (gone_after 1) (steady_clock 10) 2
    (pv_hostPath, world0)
  = (Raise (TransportError 404),
     (set_model (pv_doc "pv0" "Pending") pv_hostPath,
      {| calls := 2; ticks := 2 |})).
Proof.
  refine (wait_for_available_transport_error (fun d => d) (gone_after 1)
            (steady_clock 10) pv_hostPath world0
            (fun _ => pv_doc "pv0" "Pending") 1 2 (TransportError 404)
            _ _ _ _ _ _).
  - discriminate.
  - intros i Hi. assert (i = 0)%nat as -> by lia. reflexivity.
  - intros i Hi. discriminate.
  - intros i Hi. assert (i = 0)%nat as -> by lia. reflexivity.
  - reflexivity.
  - lia.
Defined.

(** A creation that succeeds after two polls. *)
Lemma create_returns_available_witness :
  let self' := set_model (pv_doc "pv0" "Available") pv_hostPath in
  create (fun d => d) (available_from 2) (steady_clock 10) 5
    (pv_hostPath, world0)
  = (Ok self', (self', {| calls := 3; ticks := 3 |})) /\
  Available (model self') /\ _type self' = PyStr "hostPath".
Proof.
  intros self'.
  assert (Hrun : create (fun d => d) (available_from 2) (steady_clock 10) 5
                   (pv_hostPath, world0)
                 = (Ok self', (self', {| calls := 3; ticks := 3 |})))
    by (vm_compute; reflexivity).
  split; [exact Hrun|].
  destruct (create_returns_available (fun d => d) (available_from 2)
              (steady_clock 10) 5 pv_hostPath self' self' world0 _ Hrun)
    as (_ & Hav & _ & _ & _ & Hty & _).
  split; [exact Hav|exact Hty].
Defined.

(** A creation the server refuses. *)
Lemma create_refused_witness :
  create (fun d => d) conflict (steady_clock 10) 3 (pv_hostPath, world0)
  = (Raise (TransportError 409), (pv_hostPath, {| calls := 1; ticks := 0 |})).
Proof.
  exact (create_refused (fun d => d) conflict (steady_clock 10) 3 pv_hostPath
           world0 (TransportError 409) eq_refl).
Defined.

(** The path written as NFS path is read back as host path. *)
Lemma setter_then_getter_witness :
  exists self',
    set_nfs_path (PyStr "/export") pv_nfs = (Ok tt, self') /\
    host_path self' = (Ok (PyStr "/export"), self') /\
    fst (nfs_server self') = Ok PyNone.
Proof.
  destruct (setter_then_getter pv_nfs NfsPath "nfs" (PyStr "/export")
              {[ "server" := PyNone; "path" := PyNone ]} eq_refl)
    as (self' & Hset & Hsame & Hother & _).
  - vm_compute. reflexivity.
  - exists PyNone. vm_compute. reflexivity.
  - exists self'. split; [exact Hset|]. split.
    + exact (Hsame HostPath eq_refl).
    + change (fst (getter NfsServer self') = Ok PyNone).
      rewrite (Hother NfsServer) by discriminate. vm_compute. reflexivity.
Defined.

(** Assigning ["hostPath"] again forgets the path that was written. *)
Lemma getter_after_set_type_witness :
  host_path pv_data = (Ok (PyStr "/data"), pv_data) /\
  exists self',
    set_type volume_types (PyStr "hostPath") pv_data = (Ok tt, self') /\
    host_path self' = (Ok PyNone, self').
Proof.
  split; [vm_compute; reflexivity|].
  assert (Hs : "hostPath" ∈ VALID_VOLUME_TYPES volume_types).
  { apply (bool_decide_unpack _). vm_compute. exact I. }
  destruct (getter_after_set_type volume_types pv_data "hostPath" HostPath Hs)
    as (v & self' & Hv & Hrun & Hget).
  exists self'. split; [exact Hrun|].
  assert (Hv' : v = {[ "path" := PyNone ]}).
  { assert (Some v = Some ({[ "path" := PyNone ]} : Source)) as [= ->];
      [rewrite <- Hv; vm_compute; reflexivity|reflexivity]. }
  subst v. exact Hget.
Defined.

(** The controller the constructor builds for an NFS volume. *)
Lemma new_builds_witness :
  new volume_types tt (PyStr "pv1") (PyStr "nfs")
  = Ok (constructed tt (PyStr "pv1") "nfs"
          {[ "server" := PyNone; "path" := PyNone ]}).
Proof.
  assert (Hs : "nfs" ∈ VALID_VOLUME_TYPES volume_types).
  { apply (bool_decide_unpack _). vm_compute. exact I. }
  destruct (proj1 (new_builds volume_types tt (PyStr "pv1") (PyStr "nfs"))
              "nfs" eq_refl Hs) as (v & Hv & Hnew).
  assert (Some v = Some ({[ "server" := PyNone; "path" := PyNone ]} : Source))
    as [= ->]; [rewrite <- Hv; vm_compute; reflexivity|].
  exact Hnew.
Defined.

(** The label follows through a change of type and a write to the source. *)
Lemma name_label_stays_synced_witness :
  name_label_synced pv_hostPath /\
  name_label_synced (snd (set_type volume_types (PyStr "nfs") pv_hostPath)) /\
  name_label_synced (snd (set_host_path (PyStr "/data") pv_hostPath)).
Proof.
  assert (H : name_label_synced pv_hostPath) by (vm_compute; reflexivity).
  split; [exact H|].
  destruct (proj2 (proj2 (name_label_stays_synced volume_types pv_hostPath)) H)
    as (Hty & Hset & _).
  split; [apply Hty|apply (Hset HostPath)].
Defined.

(** ["nfs"] is valid for the sample table, ["secret"] is not. *)
Lemma VALID_VOLUME_TYPES_keys_witness :
  "nfs" ∈ VALID_VOLUME_TYPES volume_types /\
  "secret" ∉ VALID_VOLUME_TYPES volume_types.
Proof.
  destruct (VALID_VOLUME_TYPES_keys volume_types) as [_ Hkeys]. split.
  - apply Hkeys. split; [eexists; vm_compute; reflexivity|].
    repeat split; discriminate.
  - intros H. apply Hkeys in H as (_ & _ & _ & H). now apply H.
Defined.

(** After a refresh from a document without a host-path slot, [host_path]
    is refused. *)
Lemma get_replaces_model_witness :
  let self' := set_model (pv_doc "pv0" "Pending") pv_data in
  get (fun d => d) pending_forever (pv_data, world0)
  = (Ok self', (self', {| calls := 1; ticks := 0 |})) /\
  host_path self' = (Raise NotImplementedError, self').
Proof.
  intros self'.
  destruct (proj1 (get_replaces_model (fun d => d) pending_forever pv_data world0)
              (pv_doc "pv0" "Pending") eq_refl) as (Hrun & _ & _ & Hacc).
  split; [exact Hrun|].
  exact (proj1 (Hacc "hostPath" HostPath PyNone eq_refl eq_refl)).
Defined.

End MoreRuns.

Section MoreNamespaceRuns.
Import K8sNamespace Sample Faulty.

(** The server accepts the namespace and then cannot be read. *)
Lemma create_update_failures_witness :
  create (fun d => d) ns_unreadable (__init__ tt (PyStr "dev"), world0)
  = (Raise (TransportError 500),
     (__init__ tt (PyStr "dev"), {| calls := 2; ticks := 0 |})).
Proof.
  exact (proj1 (proj2 (proj2
           (create_update_failures (fun d => d) ns_unreadable
              (__init__ tt (PyStr "dev")) world0 (TransportError 500))))
           (ns_doc "dev" "Active") eq_refl eq_refl).
Defined.

(** The listing of the sample server. *)
Lemma list_one_controller_per_document_witness :
  exists ctls,
    list (fun d => d) ns_server (dev, world0)
    = (Ok ctls, (dev, {| calls := 1; ticks := 0 |})) /\
    length ctls = 3%nat /\
    ctls !! 1%nat = Some dev.
Proof.
  destruct (proj1 (list_one_controller_per_document (fun d => d) ns_server
                     dev world0) _ eq_refl) as (ctls & Hrun & Hlen & Hnth).
  exists ctls. split; [exact Hrun|]. split; [exact Hlen|].
  exact (Hnth 1%nat (ns_doc "dev" "Active") eq_refl).
Defined.

(** The controller found for ["dev"] is called ["dev"]. *)
Lemma get_by_name_sound_witness :
  get_by_name (fun d => d) ns_server tt (PyStr "dev") world0
  = (Ok (Some dev), {| calls := 1; ticks := 0 |}) /\
  name dev = PyStr "dev" /\ config dev = tt.
Proof.
  assert (Hrun : get_by_name (fun d => d) ns_server tt (PyStr "dev") world0
                 = (Ok (Some dev), {| calls := 1; ticks := 0 |}))
    by (vm_compute; reflexivity).
  split; [exact Hrun|].
  destruct (proj1 (get_by_name_sound (fun d => d) ns_server tt (PyStr "dev")
                     world0 _) dev Hrun) as (Hname & Hcfg & _).
  split; [exact Hname|exact Hcfg].
Defined.

End MoreNamespaceRuns.

(** ** The polling loop entered in the [Available] state *)

Section StalePhase.
Import K8sPersistentVolume Sample Faulty.

(** C1 does not hold as stated: a controller whose local phase already
    reads ["Available"] leaves the loop at once, without a poll and without
    [TimedOutException], against a server that never reports
    ["Available"] and with a clock that reaches 60 seconds at the second
    poll. *)
Lemma stale_available_never_times_out :
  ~ times_out_whatever_the_entry (fun d => d) pending_forever
      (steady_clock 30) pv_data world0 (fun _ => pv_doc "pv0" "Pending").
Proof.
  intros H.
  destruct (H (fun _ => eq_refl)
              (fun _ => ltac:(discriminate)) 1%nat 3%nat) as (msg & st & Hrun).
  - intros i Hi. assert (i = 0)%nat as -> by lia. reflexivity.
  - apply Qle_bool_iff. reflexivity.
  - lia.
  - vm_compute in Hrun. discriminate.
Qed.

(** C2 does not hold as stated: the same controller, against a server that
    reports ["Pending"] twice and then ["Available"], returns after no poll
    at all, not after three. *)
Lemma stale_available_returns_without_poll :
  ~ returns_after_polls_whatever_the_entry (fun d => d) (available_from 2)
      (steady_clock 10) pv_data world0
      (fun i => pv_doc "pv0" (if (i <? 2)%nat then "Pending" else "Available"))
      2 4.
Proof.
  intros H.
  destruct H as (self' & w' & Hrun & Hcalls).
  - reflexivity.
  - intros [|[|i]] Hi; [reflexivity|reflexivity|lia].
  - reflexivity.
  - intros [|[|[|i]]] Hi; [reflexivity|reflexivity|reflexivity|lia].
  - lia.
  - vm_compute in Hrun. injection Hrun as <- <-. discriminate.
Qed.

End StalePhase.
